(** * IntelliOS Firestore API (server.py): account and workspace endpoints

    A shallow embedding of the five request handlers of [server.py]
    (login, signup, create_update_workspace, get_all_workspaces,
    delete_workspace) over a model of the document collection ["DDNA"],
    and the properties of section 8 of the specification.

    Conventions of the model:
    - the collection is a finite map from document id to the fields of the
      document, and the calls the handlers make on it ([document], [get],
      [set], [update]) act on it.  The Firestore client checks what it is
      given before it sends anything: a document id must give a path with
      an even number of elements, a written map must have no empty key,
      and an integer must fit in 64 bits.  A refusal is a [ValueError]
      raised inside the handler's [try].  A store holds only what passes
      these checks.  The server behind the client is taken to be
      reachable and to accept what the client accepts: the infrastructure
      failures of section 7 are outside the model;
    - a handler is a computation that threads the collection and either
      returns a response body or raises; [try]/[except] is a combinator;
    - fields are dynamically typed, as in Python: an operation applied to
      a value of the wrong kind raises, and the handler turns that into a
      500 response;
    - requests have passed the request models, so their fields have the
      declared types. *)

From Stdlib Require Import Ascii.
From stdpp Require Import gmap strings list fin_maps.

Open Scope string_scope.

(** ** Values held by documents

    Firestore documents and request bodies carry JSON-like values.  The
    handlers never look inside a workspace state; they only test what kind
    of object a field holds (by indexing it, or through the response
    models). *)

#[local] Set Warnings "-register-all".

Inductive value : Type :=
  | VNull
  | VBool (b : bool)
  | VInt (n : Z)
  | VFloat (bits : Z)            (* the binary64 pattern of the float *)
  | VStr (s : string)
  | VList (l : list value)
  | VDict (d : gmap string value).

(** [Dict[str, Any]]: the type of a workspace state in a request. *)
Abbreviation state := (gmap string value) (only parsing).

(** What [doc.to_dict()] returns: field name to value. *)
Abbreviation document := (gmap string value) (only parsing).

(** ** The checks of the Firestore client

    The client library is not part of the repository; these definitions
    follow the checks it makes on the arguments the handlers pass, all of
    them before any request is sent. *)

(** [s.split(sep)] *)
Fixpoint str_split (sep : ascii) (s : string) : list string :=
  match s with
  | EmptyString => [EmptyString]
  | String c rest =>
      if Ascii.eqb c sep then EmptyString :: str_split sep rest
      else
        match str_split sep rest with
        | piece :: pieces => String c piece :: pieces
        | [] => [String c EmptyString]
        end
  end.

(** The path of [db.collection("DDNA").document(document_id)]: the
    collection path and the id joined with ["/"] and split on ["/"]. *)
Definition document_path (document_id : string) : list string :=
  str_split "/" ("DDNA" ++ "/" ++ document_id).

(** [verify_path(path, is_collection=False)]: a document path is not
    empty and has an even number of elements. *)
Definition verify_path (path : list string) : bool :=
  negb (Nat.eqb (length path) 0) && Nat.even (length path).

(** The ids for which the client builds a document reference. *)
Definition addressable (document_id : string) : bool :=
  verify_path (document_path document_id).

(** [extract_fields]: the walk over a written map that builds a field
    path for every key, at every depth of nested dicts (a list is a leaf);
    a field path refuses an empty component. *)
Fixpoint fields_ok (v : value) : bool :=
  match v with
  | VDict d =>
      map_fold
        (λ key x ok, negb (bool_decide (key = "")) && fields_ok x && ok)
        true d
  | _ => true
  end.

(** [encode_value]: every JSON kind has a Firestore encoding; an integer
    is a signed 64-bit one. *)
Fixpoint encodable (v : value) : bool :=
  match v with
  | VInt n => bool_decide (- 2 ^ 63 ≤ n < 2 ^ 63)%Z
  | VList l => forallb encodable l
  | VDict d => map_fold (λ _ x ok, encodable x && ok) true d
  | _ => true
  end.

(** What the client accepts to write. *)
Definition storable (v : value) : bool := fields_ok v && encodable v.

#[global] Arguments addressable : simpl never.
#[global] Arguments storable : simpl never.

(** ** The collection ["DDNA"]

    Document id (the username) to document.  Only an addressable id
    holds a document and only storable values are held. *)

Definition well_formed (docs : gmap string document) : bool :=
  bool_decide
    (map_Forall
       (λ id doc, addressable id = true ∧ storable (VDict doc) = true) docs).

Record Firestore : Type :=
  { documents : gmap string document;
    documents_wf : well_formed documents = true }.

#[export] Instance Firestore_lookup : Lookup string document Firestore :=
  λ id db, documents db !! id.

#[export] Instance Firestore_empty : Empty Firestore :=
  {| documents := ∅; documents_wf := eq_refl |}.

(** Writing a document under an id.  The callers below check the id and
    the document first, so the second branch is for completeness. *)
Definition put (id : string) (doc : document) (db : Firestore) : Firestore :=
  match well_formed (<[id := doc]> (documents db)) as b
        return well_formed (<[id := doc]> (documents db)) = b → Firestore
  with
  | true =>
      λ H, {| documents := <[id := doc]> (documents db); documents_wf := H |}
  | false => λ _, db
  end eq_refl.

#[export] Instance Firestore_insert : Insert string document Firestore := put.

#[export] Instance Firestore_singleton
    : SingletonM string document Firestore :=
  λ id doc, put id doc ∅.

#[export] Instance Firestore_dom : Dom Firestore (gset string) :=
  λ db, dom (documents db).

#[global] Arguments put : simpl never.
#[global] Arguments Firestore_lookup : simpl never.
#[global] Arguments Firestore_insert : simpl never.
#[global] Arguments Firestore_singleton : simpl never.
#[global] Arguments Firestore_dom : simpl never.

(** ** Exceptions and handler computations *)

Inductive Exception : Type :=
  | HTTPException (status_code : Z) (detail : string)
  | TypeError (target : value)          (* indexing a non-container *)
  | KeyError (key : string)             (* deleting an unbound key *)
  | ValidationError (rejected : value)  (* a response model refusing a field *)
  | ValueError (refused : value)        (* the client refusing an argument *)
  | NotFound (document_id : string).    (* updating a missing document *)

Inductive outcome (A : Type) : Type :=
  | Return (a : A)
  | Raise (e : Exception).
Arguments Return {A} a.
Arguments Raise {A} e.

(** A handler body reads and writes the collection and either returns or
    raises; a write made before a raise stays made. *)
Definition Handler (A : Type) : Type := Firestore → outcome A * Firestore.

#[export] Instance Handler_ret : MRet Handler :=
  λ A a db, (Return a, db).

#[export] Instance Handler_bind : MBind Handler :=
  λ A B k m db,
    match m db with
    | (Return a, db') => k a db'
    | (Raise e, db') => (Raise e, db')
    end.

Definition raise {A : Type} (e : Exception) : Handler A :=
  λ db, (Raise e, db).

Definition lift {A : Type} (o : outcome A) : Handler A :=
  λ db, (o, db).

(** [try: body except ...: handler] *)
Definition try_except {A : Type}
    (body : Handler A) (handler : Exception → Handler A) : Handler A :=
  λ db,
    match body db with
    | (Return a, db') => (Return a, db')
    | (Raise e, db') => handler e db'
    end.

(** The status line of the HTTP response FastAPI sends for an outcome. *)
Definition http_status {A : Type} (o : outcome A) : Z :=
  match o with
  | Return _ => 200
  | Raise (HTTPException status_code _) => status_code
  | Raise _ => 500
  end.

(** ** The document reference: [db.collection("DDNA").document(id)] *)

Module DocumentReference.

(** [db.collection("DDNA").document(document_id)]: the reference, or the
    client's refusal of the path. *)
Definition document (document_id : string) : Handler string :=
  if addressable document_id
  then mret document_id
  else raise (ValueError (VList (VStr <$> document_path document_id))).

(** [.get()]: [None] stands for a snapshot with [exists = False],
    [Some d] for one whose [to_dict()] is [d]. *)
Definition get (doc_ref : string) : Handler (option (gmap string value)) :=
  λ db, (Return (db !! doc_ref), db).

(** [.set(data)]: writes the whole document, if the client accepts the
    data. *)
Definition set (doc_ref : string) (data : gmap string value)
    : Handler unit :=
  if storable (VDict data)
  then λ db, (Return tt, <[doc_ref := data]> db)
  else raise (ValueError (VDict data)).

(** [.update({field: v})]: replaces one field of an existing document,
    whole-field, if the client accepts the update; fails on a missing
    document. *)
Definition update (doc_ref field : string) (v : value) : Handler unit :=
  if storable (VDict {[ field := v ]})
  then
    λ db,
      match db !! doc_ref with
      | Some doc => (Return tt, <[doc_ref := <[field := v]> doc]> db)
      | None => (Raise (NotFound doc_ref), db)
      end
  else raise (ValueError (VDict {[ field := v ]})).

End DocumentReference.

(** ** Python operations on a value fetched from a document *)

(** [target[key] = v] *)
Definition setitem (target : value) (key : string) (v : value) : outcome value :=
  match target with
  | VDict d => Return (VDict (<[key := v]> d))
  | _ => Raise (TypeError target)
  end.

(** [key in target], for a [str] key: key membership on a dict, substring
    on a string, element equality on a list. *)
Definition contains (target : value) (key : string) : outcome bool :=
  match target with
  | VDict d => Return (bool_decide (is_Some (d !! key)))
  | VStr s => Return (bool_decide (is_Some (String.index 0 key s)))
  | VList l =>
      Return (existsb
                (λ x, match x with
                      | VStr s => bool_decide (s = key)
                      | _ => false
                      end) l)
  | _ => Raise (TypeError target)
  end.

(** [del target[key]] *)
Definition delitem (target : value) (key : string) : outcome value :=
  match target with
  | VDict d =>
      match d !! key with
      | Some _ => Return (VDict (delete key d))
      | None => Raise (KeyError key)
      end
  | _ => Raise (TypeError target)
  end.

(** [stored != given], where [stored] is the result of [dict.get] and
    [given] is a [str]: equal only when a string with the same text. *)
Definition ne_str (stored : option value) (given : string) : bool :=
  match stored with
  | Some (VStr s) => negb (bool_decide (s = given))
  | _ => true
  end.

(** ** Response-model validation (pydantic)

    A response model accepts a field only if it has the declared type.
    The declared types of the status and message fields are [str] and the
    handlers pass string literals, so only [workspaces] can be refused.
    A value of another shape is refused here; what a given pydantic
    release would coerce instead only matters for the answer to a read of
    a document that is not an account, never for the store. *)

Definition as_dict (v : value) : option (gmap string value) :=
  match v with
  | VDict d => Some d
  | _ => None
  end.

(** [Dict[str, Dict[str, Any]]] *)
Definition validate_workspaces (v : value) : outcome (gmap string state) :=
  match v with
  | VDict d =>
      if bool_decide (map_Forall (λ _ x, is_Some (as_dict x)) d)
      then Return (omap as_dict d)
      else Raise (ValidationError v)
  | _ => Raise (ValidationError v)
  end.

(** [Optional[Dict[str, Dict[str, Any]]]] *)
Definition validate_optional_workspaces (v : value)
    : outcome (option (gmap string state)) :=
  match v with
  | VNull => Return None
  | _ =>
      match validate_workspaces v with
      | Return ws => Return (Some ws)
      | Raise e => Raise e
      end
  end.

(** ** Request and response models *)

Module LoginRequest.
Record t := { username : string; password : string }.
End LoginRequest.

Module LoginResponse.
Record t :=
  { status : string; message : string;
    workspaces : option (gmap string state) }.
End LoginResponse.

Module SignupRequest.
Record t :=
  { username : string; password : string; name : string; email : string }.
End SignupRequest.

Module SignupResponse.
Record t := { status : string; message : string }.
End SignupResponse.

Module CreateWorkspaceRequest.
Record t := { username : string; workspace_name : string; state : state }.
End CreateWorkspaceRequest.

Module CreateWorkspaceResponse.
Record t := { status : string; message : string }.
End CreateWorkspaceResponse.

Module GetWorkspacesRequest.
Record t := { username : string }.
End GetWorkspacesRequest.

Module GetWorkspacesResponse.
Record t := { status : string; workspaces : gmap string state }.
End GetWorkspacesResponse.

Module DeleteWorkspaceRequest.
Record t := { username : string; workspace_name : string }.
End DeleteWorkspaceRequest.

Module DeleteWorkspaceResponse.
Record t := { status : string; message : string }.
End DeleteWorkspaceResponse.

(** ** The request handlers *)

Section Handlers.

(** [str(e)]: the text Python and the libraries give an exception.  The
    source only splices it into the detail of a 500 response. *)
Variable str : Exception → string.

(** [except Exception as e: raise HTTPException(500, f"{prefix}{str(e)}")]
    (the [logger.error] call before it does not touch the store). *)
Definition except_Exception {A : Type} (prefix : string) (e : Exception)
    : Handler A :=
  raise (HTTPException 500 (prefix ++ str e)).

(** [except HTTPException as he: raise he], then the clause above. *)
Definition except_HTTPException {A : Type} (prefix : string) (e : Exception)
    : Handler A :=
  match e with
  | HTTPException _ _ => raise e
  | _ => except_Exception prefix e
  end.

Definition login (request : LoginRequest.t) : Handler LoginResponse.t :=
  try_except
    (doc_ref ← DocumentReference.document (LoginRequest.username request);
     doc ← DocumentReference.get doc_ref;
     match doc with
     | None =>
         mret {| LoginResponse.status := "error";
                 LoginResponse.message := "Username not found";
                 LoginResponse.workspaces := None |}
     | Some user_data =>
         if ne_str (user_data !! "password") (LoginRequest.password request)
         then
           mret {| LoginResponse.status := "error";
                   LoginResponse.message := "Incorrect Password";
                   LoginResponse.workspaces := None |}
         else
           workspaces ← lift (validate_optional_workspaces
                                (default (VDict ∅) (user_data !! "workspaces")));
           mret {| LoginResponse.status := "success";
                   LoginResponse.message := "Successful";
                   LoginResponse.workspaces := workspaces |}
     end)
    (except_Exception "Login failed: ").

(** The document [signup] writes for a new account. *)
Definition user_data (request : SignupRequest.t) : document :=
  <["username" := VStr (SignupRequest.username request)]>
  (<["password" := VStr (SignupRequest.password request)]>
  (<["name" := VStr (SignupRequest.name request)]>
  (<["email" := VStr (SignupRequest.email request)]>
  (<["workspaces" := VDict ∅]> ∅)))).

Definition signup (request : SignupRequest.t) : Handler SignupResponse.t :=
  try_except
    (doc_ref ← DocumentReference.document (SignupRequest.username request);
     doc ← DocumentReference.get doc_ref;
     match doc with
     | Some _ =>
         mret {| SignupResponse.status := "error";
                 SignupResponse.message := "Username already exists" |}
     | None =>
         doc_ref ← DocumentReference.document (SignupRequest.username request);
         DocumentReference.set doc_ref (user_data request);;
         mret {| SignupResponse.status := "success";
                 SignupResponse.message := "Account created successfully" |}
     end)
    (except_Exception "Signup failed: ").

Definition create_update_workspace (request : CreateWorkspaceRequest.t)
    : Handler CreateWorkspaceResponse.t :=
  try_except
    (doc_ref ← DocumentReference.document
                 (CreateWorkspaceRequest.username request);
     doc ← DocumentReference.get doc_ref;
     match doc with
     | None => raise (HTTPException 404 "User not found")
     | Some user_data =>
         let workspaces := default (VDict ∅) (user_data !! "workspaces") in
         workspaces ← lift (setitem workspaces
                              (CreateWorkspaceRequest.workspace_name request)
                              (VDict (CreateWorkspaceRequest.state request)));
         DocumentReference.update doc_ref "workspaces" workspaces;;
         mret {| CreateWorkspaceResponse.status := "success";
                 CreateWorkspaceResponse.message :=
                   "Workspace '"
                   ++ CreateWorkspaceRequest.workspace_name request
                   ++ "' created/updated successfully" |}
     end)
    (except_HTTPException "Error creating workspace: ").

Definition get_all_workspaces (request : GetWorkspacesRequest.t)
    : Handler GetWorkspacesResponse.t :=
  try_except
    (doc_ref ← DocumentReference.document
                 (GetWorkspacesRequest.username request);
     doc ← DocumentReference.get doc_ref;
     match doc with
     | None => raise (HTTPException 404 "User not found")
     | Some user_data =>
         let workspaces := default (VDict ∅) (user_data !! "workspaces") in
         workspaces ← lift (validate_workspaces workspaces);
         mret {| GetWorkspacesResponse.status := "success";
                 GetWorkspacesResponse.workspaces := workspaces |}
     end)
    (except_HTTPException "Error getting workspaces: ").

Definition delete_workspace (request : DeleteWorkspaceRequest.t)
    : Handler DeleteWorkspaceResponse.t :=
  try_except
    (doc_ref ← DocumentReference.document
                 (DeleteWorkspaceRequest.username request);
     doc ← DocumentReference.get doc_ref;
     match doc with
     | None => raise (HTTPException 404 "User not found")
     | Some user_data =>
         let workspaces := default (VDict ∅) (user_data !! "workspaces") in
         present ← lift (contains workspaces
                           (DeleteWorkspaceRequest.workspace_name request));
         if negb present
         then
           raise (HTTPException 404
                    ("Workspace '"
                     ++ DeleteWorkspaceRequest.workspace_name request
                     ++ "' not found"))
         else
           workspaces ← lift (delitem workspaces
                                (DeleteWorkspaceRequest.workspace_name request));
           DocumentReference.update doc_ref "workspaces" workspaces;;
           mret {| DeleteWorkspaceResponse.status := "success";
                   DeleteWorkspaceResponse.message :=
                     "Workspace '"
                     ++ DeleteWorkspaceRequest.workspace_name request
                     ++ "' deleted successfully" |}
     end)
    (except_HTTPException "Error deleting workspace: ").

(** ** Routing: the application as one transition function *)

Inductive Request : Type :=
  | GET_root
  | POST_login (request : LoginRequest.t)
  | POST_signup (request : SignupRequest.t)
  | POST_workspace (request : CreateWorkspaceRequest.t)
  | POST_workspaces (request : GetWorkspacesRequest.t)
  | DELETE_workspace (request : DeleteWorkspaceRequest.t).

Inductive Response : Type :=
  | RootBody (status message : string)
  | LoginBody (body : LoginResponse.t)
  | SignupBody (body : SignupResponse.t)
  | CreateWorkspaceBody (body : CreateWorkspaceResponse.t)
  | GetWorkspacesBody (body : GetWorkspacesResponse.t)
  | DeleteWorkspaceBody (body : DeleteWorkspaceResponse.t).

Definition read_root : Handler Response :=
  mret (RootBody "online" "IntelliOS API is running").

Definition route {A : Type} (wrap : A → Response) (h : Handler A)
    : Handler Response :=
  body ← h; mret (wrap body).

Definition app (req : Request) : Handler Response :=
  match req with
  | GET_root => read_root
  | POST_login request => route LoginBody (login request)
  | POST_signup request => route SignupBody (signup request)
  | POST_workspace request =>
      route CreateWorkspaceBody (create_update_workspace request)
  | POST_workspaces request =>
      route GetWorkspacesBody (get_all_workspaces request)
  | DELETE_workspace request =>
      route DeleteWorkspaceBody (delete_workspace request)
  end.

(** The [status] field of a response body. *)
Definition body_status (r : Response) : string :=
  match r with
  | RootBody status _ => status
  | LoginBody body => LoginResponse.status body
  | SignupBody body => SignupResponse.status body
  | CreateWorkspaceBody body => CreateWorkspaceResponse.status body
  | GetWorkspacesBody body => GetWorkspacesResponse.status body
  | DeleteWorkspaceBody body => DeleteWorkspaceResponse.status body
  end.

(** A domain error: HTTP 200 with [status = "error"] in the body. *)
Definition domain_error (o : outcome Response) : Prop :=
  match o with
  | Return body => body_status body = "error"
  | Raise _ => False
  end.

(** The store after serving a sequence of requests, oldest first. *)
Definition serve (reqs : list Request) (db : Firestore) : Firestore :=
  foldl (λ db req, (app req db).2) db reqs.

(** The stores the service can be in, starting from an empty collection. *)
Inductive reachable : Firestore → Prop :=
  | reachable_empty : reachable ∅
  | reachable_step db req : reachable db → reachable (app req db).2.

(** ** The data model of section 3 *)

(** The document's [workspaces] field is the map [ws] from workspace name
    to workspace state.  The field is read the way the handlers read it,
    [.get("workspaces", {})], so a document without the field holds the
    empty map. *)
Definition holds_workspaces (doc : document) (ws : gmap string state)
    : Prop :=
  default (VDict ∅) (doc !! "workspaces") = VDict (VDict <$> ws).

(** An account document stored under [username]. *)
Record is_account (username : string) (doc : document) : Prop :=
  { account_username : doc !! "username" = Some (VStr username);
    account_password : ∃ p, doc !! "password" = Some (VStr p);
    account_name : ∃ n, doc !! "name" = Some (VStr n);
    account_email : ∃ e, doc !! "email" = Some (VStr e);
    account_workspaces : ∃ ws, holds_workspaces doc ws }.

(** Every document of the collection is an account stored under its own
    username. *)
Definition accounts_only (db : Firestore) : Prop :=
  ∀ username doc, db !! username = Some doc → is_account username doc.

(** ** What a request names *)

(** The username in the body of a request; the health check has none. *)
Definition request_username (req : Request) : option string :=
  match req with
  | GET_root => None
  | POST_login request => Some (LoginRequest.username request)
  | POST_signup request => Some (SignupRequest.username request)
  | POST_workspace request => Some (CreateWorkspaceRequest.username request)
  | POST_workspaces request => Some (GetWorkspacesRequest.username request)
  | DELETE_workspace request => Some (DeleteWorkspaceRequest.username request)
  end.

(** The literal that opens the detail of a 500 answer of each route (the
    f-string of its [except Exception] clause). *)
Definition failure_prefix (req : Request) : string :=
  match req with
  | GET_root => ""
  | POST_login _ => "Login failed: "
  | POST_signup _ => "Signup failed: "
  | POST_workspace _ => "Error creating workspace: "
  | POST_workspaces _ => "Error getting workspaces: "
  | DELETE_workspace _ => "Error deleting workspace: "
  end.

(** The requests whose arguments the Firestore client accepts: the
    username as a document id and, for an upsert, the workspace name and
    the state as a value to write. *)
Definition client_accepts (req : Request) : Prop :=
  match req with
  | GET_root => True
  | POST_login request => addressable (LoginRequest.username request) = true
  | POST_signup request => addressable (SignupRequest.username request) = true
  | POST_workspace request =>
      addressable (CreateWorkspaceRequest.username request) = true
      ∧ CreateWorkspaceRequest.workspace_name request ≠ ""
      ∧ storable (VDict (CreateWorkspaceRequest.state request)) = true
  | POST_workspaces request =>
      addressable (GetWorkspacesRequest.username request) = true
  | DELETE_workspace request =>
      addressable (DeleteWorkspaceRequest.username request) = true
  end.

(** ** A sample store

    One account, [alice], with one workspace; the properties below are
    exercised on it. *)

Definition proj1_state : state := {[ "x" := VInt 1 ]}.

Definition alice_workspaces : gmap string state :=
  {[ "proj1" := proj1_state ]}.

Definition alice : document :=
  <["username" := VStr "alice"]>
  (<["password" := VStr "pw1"]>
  (<["name" := VStr "Alice"]>
  (<["email" := VStr "a@x.com"]>
  (<["workspaces" := VDict (VDict <$> alice_workspaces)]> ∅)))).

Definition sample_store : Firestore := {[ "alice" := alice ]}.

(** A document written by another client: [workspaces] is not a map. *)
Definition stray : document :=
  <["password" := VStr "pw"]> (<["workspaces" := VStr "abc"]> ∅).

(** Two more documents written by another client: one without a
    [workspaces] field, one whose [workspaces] field is null. *)
Definition bare : document := {[ "password" := VStr "pw" ]}.

Definition nulled : document :=
  <["password" := VStr "pw"]> (<["workspaces" := VNull]> ∅).

(** A store that holds the three documents off the data model. *)
Definition foreign_store : Firestore :=
  <["carol" := bare]> (<["dave" := nulled]> (<["eve" := stray]> ∅)).

(** A sample rendering of exceptions as text. *)
Definition exception_text (e : Exception) : string :=
  match e with
  | HTTPException _ detail => detail
  | TypeError _ => "TypeError"
  | KeyError key => key
  | ValidationError _ => "ValidationError"
  | ValueError _ => "ValueError"
  | NotFound document_id => document_id
  end.

(** ** Auxiliary facts *)

(** *** What the client accepts *)

Lemma str_split_length sep s :
  length (str_split sep s)
  = S (length (filter (λ c, c = sep) (String.list_ascii_of_string s))).
Proof.
  induction s as [|c rest IH]; simpl; [done|].
  destruct (Ascii.eqb_spec c sep) as [->|Hne].
  - rewrite filter_cons_True by done. simpl. by rewrite IH.
  - rewrite filter_cons_False by done.
    destruct (str_split sep rest) as [|piece pieces]; simpl in *; [done|].
    done.
Qed.

(** The client builds a reference exactly for the ids with an even number
    of ["/"]: none, as in a plain username, or two, four, ... *)
Lemma addressable_even_slashes document_id :
  addressable document_id
  = Nat.even
      (length (filter (λ c, c = "/"%char) (String.list_ascii_of_string document_id))).
Proof.
  unfold addressable, verify_path, document_path.
  rewrite str_split_length. by simpl.
Qed.

Lemma map_fold_andb {A : Type} (f : string → A → bool) (m : gmap string A) :
  map_fold (λ k x ok, f k x && ok) true m = true
  ↔ map_Forall (λ k x, f k x = true) m.
Proof.
  apply (map_fold_weak_ind
           (λ (r : bool) (m : gmap string A),
              r = true ↔ map_Forall (λ k x, f k x = true) m)).
  - split; [intros _; apply map_Forall_empty | done].
  - intros k x m' r Hfresh IH.
    rewrite map_Forall_insert by done.
    rewrite andb_true_iff, IH. done.
Qed.

Lemma storable_dict (d : gmap string value) :
  storable (VDict d) = true
  ↔ map_Forall (λ key x, key ≠ "" ∧ storable x = true) d.
Proof.
  unfold storable. simpl.
  rewrite andb_true_iff.
  rewrite (map_fold_andb (λ key x, negb (bool_decide (key = "")) && fields_ok x)).
  rewrite (map_fold_andb (λ _ x, encodable x)).
  split.
  - intros [Hf He] key x Hx.
    specialize (Hf key x Hx). specialize (He key x Hx). simpl in *.
    apply andb_true_iff in Hf as [Hkey Hf].
    apply negb_true_iff, bool_decide_eq_false in Hkey.
    by rewrite Hf, He.
  - intros H. split; intros key x Hx; destruct (H key x Hx) as [Hkey Hs];
      apply andb_true_iff in Hs as [Hf He]; simpl; [|done].
    rewrite Hf, bool_decide_eq_false_2 by done. done.
Qed.

Lemma storable_empty : storable (VDict ∅) = true.
Proof. done. Qed.

Lemma storable_insert (d : gmap string value) key x :
  key ≠ "" → storable x = true → storable (VDict d) = true →
  storable (VDict (<[key := x]> d)) = true.
Proof.
  rewrite !storable_dict. intros Hkey Hx Hd.
  by apply map_Forall_insert_2.
Qed.

Lemma storable_insert_inv (d : gmap string value) key x :
  storable (VDict (<[key := x]> d)) = true → key ≠ "" ∧ storable x = true.
Proof.
  rewrite storable_dict. intros Hd.
  apply (map_Forall_insert_1_1 _ _ _ _ Hd).
Qed.

Lemma storable_delete (d : gmap string value) key :
  storable (VDict d) = true → storable (VDict (delete key d)) = true.
Proof. rewrite !storable_dict. apply map_Forall_delete. Qed.

Lemma storable_lookup (d : gmap string value) key x :
  storable (VDict d) = true → d !! key = Some x → storable x = true.
Proof. rewrite storable_dict. intros Hd Hx. by destruct (Hd key x Hx). Qed.

Lemma storable_field (field : string) (v : value) :
  field ≠ "" →
  storable (VDict {[ field := v ]}) = storable v.
Proof.
  intros Hfield. apply eq_true_iff_eq.
  rewrite storable_dict, map_Forall_singleton.
  split; [by intros [_ ?] | by intros ?].
Qed.

Lemma storable_states (ws : gmap string (gmap string value)) :
  storable (VDict (VDict <$> ws)) = true
  ↔ map_Forall (λ name S, name ≠ "" ∧ storable (VDict S) = true) ws.
Proof.
  rewrite storable_dict. split.
  - intros H name S HS. apply (H name (VDict S)).
    by rewrite lookup_fmap, HS.
  - intros H name x. rewrite lookup_fmap.
    destruct (ws !! name) as [S|] eqn:HS; simpl; [|done].
    intros [= <-]. by apply H.
Qed.

(** *** The collection *)

Lemma Firestore_eq (db1 db2 : Firestore) :
  documents db1 = documents db2 → db1 = db2.
Proof.
  destruct db1 as [m1 H1], db2 as [m2 H2]; simpl. intros ->.
  f_equal. apply proof_irrel.
Qed.

Lemma lookup_wf (db : Firestore) id doc :
  db !! id = Some doc → addressable id = true ∧ storable (VDict doc) = true.
Proof.
  destruct db as [m Hm]. unfold lookup, Firestore_lookup; simpl.
  apply bool_decide_eq_true in Hm. apply Hm.
Qed.

Lemma documents_put (db : Firestore) id doc :
  addressable id = true → storable (VDict doc) = true →
  documents (<[id := doc]> db) = <[id := doc]> (documents db).
Proof.
  intros Hid Hdoc.
  assert (well_formed (<[id := doc]> (documents db)) = true) as Hwf.
  { pose proof (documents_wf db) as Hdb.
    apply bool_decide_eq_true in Hdb.
    by apply bool_decide_eq_true, map_Forall_insert_2. }
  unfold insert at 1, Firestore_insert, put.
  generalize (eq_refl (well_formed (<[id := doc]> (documents db)))).
  generalize (well_formed (<[id := doc]> (documents db))) at 2 3.
  intros b Hb. destruct b; [done|congruence].
Qed.

Lemma lookup_put (db : Firestore) id doc id' :
  addressable id = true → storable (VDict doc) = true →
  <[id := doc]> db !! id' = if decide (id = id') then Some doc else db !! id'.
Proof.
  intros Hid Hdoc. unfold lookup at 1, Firestore_lookup.
  rewrite documents_put by done. apply lookup_insert.
Qed.

Lemma lookup_put_eq (db : Firestore) id doc :
  addressable id = true → storable (VDict doc) = true →
  <[id := doc]> db !! id = Some doc.
Proof. intros. rewrite lookup_put by done. by rewrite decide_True. Qed.

Lemma lookup_put_ne (db : Firestore) id doc id' :
  id ≠ id' → <[id := doc]> db !! id' = db !! id'.
Proof.
  intros Hne. unfold lookup, Firestore_lookup.
  unfold insert, Firestore_insert, put.
  generalize (eq_refl (well_formed (<[id := doc]> (documents db)))).
  generalize (well_formed (<[id := doc]> (documents db))) at 2 3.
  intros b Hb. destruct b; simpl; [|done].
  by apply lookup_insert_ne.
Qed.

Lemma put_put (db : Firestore) id doc1 doc2 :
  addressable id = true →
  storable (VDict doc1) = true → storable (VDict doc2) = true →
  <[id := doc1]> (<[id := doc2]> db) = <[id := doc1]> db.
Proof.
  intros Hid H1 H2. apply Firestore_eq.
  rewrite !documents_put by done. apply insert_insert_eq.
Qed.

Lemma put_commute (db : Firestore) id1 id2 doc1 doc2 :
  id1 ≠ id2 →
  addressable id1 = true → addressable id2 = true →
  storable (VDict doc1) = true → storable (VDict doc2) = true →
  <[id1 := doc1]> (<[id2 := doc2]> db) = <[id2 := doc2]> (<[id1 := doc1]> db).
Proof.
  intros Hne Hid1 Hid2 H1 H2. apply Firestore_eq.
  rewrite !documents_put by done. by apply insert_insert_ne.
Qed.

Lemma put_same (db : Firestore) id doc :
  db !! id = Some doc → <[id := doc]> db = db.
Proof.
  intros Hdoc. destruct (lookup_wf _ _ _ Hdoc) as [Hid Hs].
  apply Firestore_eq. rewrite documents_put by done. by apply insert_id.
Qed.

(** *** Reading the handlers *)

Ltac unfold_handler :=
  unfold login, signup, create_update_workspace, get_all_workspaces,
    delete_workspace, try_except, except_HTTPException, except_Exception,
    raise, lift, DocumentReference.document, DocumentReference.get,
    DocumentReference.set, DocumentReference.update, mbind, Handler_bind,
    mret, Handler_ret;
  simpl.

Lemma omap_as_dict_fmap (ws : gmap string state) :
  omap as_dict (VDict <$> ws) = ws.
Proof.
  apply map_eq; intros k.
  rewrite lookup_omap, lookup_fmap.
  by destruct (ws !! k).
Qed.

Lemma all_dicts_fmap (ws : gmap string state) :
  map_Forall (λ (_ : string) x, is_Some (as_dict x)) (VDict <$> ws).
Proof.
  intros k x. rewrite lookup_fmap.
  destruct (ws !! k) as [d|]; simpl; [|done].
  intros [= <-]. by eexists.
Qed.

(** The response model accepts a map of states and returns it as it is. *)
Lemma validate_workspaces_states (ws : gmap string state) :
  validate_workspaces (VDict (VDict <$> ws)) = Return ws.
Proof.
  unfold validate_workspaces.
  rewrite bool_decide_eq_true_2 by apply all_dicts_fmap.
  by rewrite omap_as_dict_fmap.
Qed.

Lemma default_workspaces doc ws :
  holds_workspaces doc ws →
  default (VDict ∅) (doc !! "workspaces") = VDict (VDict <$> ws).
Proof. done. Qed.

Lemma holds_workspaces_insert (doc : document) (ws : gmap string state) :
  holds_workspaces (<["workspaces" := VDict (VDict <$> ws)]> doc) ws.
Proof. unfold holds_workspaces. by rewrite lookup_insert_eq. Qed.

Lemma user_data_storable request : storable (VDict (user_data request)) = true.
Proof.
  unfold user_data.
  repeat (apply storable_insert; [done|done|]).
  apply storable_empty.
Qed.

(** The [workspaces] field of a stored document, when it is a dict, is one
    the client accepts. *)
Lemma stored_workspaces_storable (db : Firestore) id doc d :
  db !! id = Some doc →
  default (VDict ∅) (doc !! "workspaces") = VDict d →
  storable (VDict d) = true.
Proof.
  intros Hdoc Hws. destruct (lookup_wf _ _ _ Hdoc) as [_ Hs].
  destruct (doc !! "workspaces") as [v|] eqn:Hfield; simpl in Hws.
  - subst v. by apply (storable_lookup doc "workspaces").
  - by injection Hws as <-.
Qed.

Lemma replace_workspaces_storable (db : Firestore) id doc d :
  db !! id = Some doc → storable (VDict d) = true →
  storable (VDict (<["workspaces" := VDict d]> doc)) = true.
Proof.
  intros Hdoc Hd. destruct (lookup_wf _ _ _ Hdoc) as [_ Hs].
  by apply storable_insert.
Qed.

(** *** What each handler does to the store *)

Lemma login_store request db : (login request db).2 = db.
Proof.
  unfold_handler.
  destruct (addressable _); simpl; [|done].
  destruct (db !! LoginRequest.username request) as [user_data|]; simpl; [|done].
  destruct (ne_str _ _); simpl; [done|].
  by destruct (validate_optional_workspaces _).
Qed.

Lemma get_all_workspaces_store request db :
  (get_all_workspaces request db).2 = db.
Proof.
  unfold_handler.
  destruct (addressable _); simpl; [|done].
  destruct (db !! GetWorkspacesRequest.username request) as [user_data|];
    simpl; [|done].
  destruct (validate_workspaces _) as [ws|e]; simpl; [done|].
  by destruct e.
Qed.

(** The answer to a username the client refuses as a document id. *)
Lemma login_refused request db :
  addressable (LoginRequest.username request) = false →
  login request db
  = (Raise (HTTPException 500
              ("Login failed: "
               ++ str (ValueError
                         (VList (VStr <$> document_path
                                            (LoginRequest.username request)))))),
     db).
Proof. intros Hid. unfold_handler. by rewrite Hid. Qed.

Lemma signup_refused request db :
  addressable (SignupRequest.username request) = false →
  signup request db
  = (Raise (HTTPException 500
              ("Signup failed: "
               ++ str (ValueError
                         (VList (VStr <$> document_path
                                            (SignupRequest.username request)))))),
     db).
Proof. intros Hid. unfold_handler. by rewrite Hid. Qed.

Lemma create_update_workspace_refused request db :
  addressable (CreateWorkspaceRequest.username request) = false →
  create_update_workspace request db
  = (Raise (HTTPException 500
              ("Error creating workspace: "
               ++ str (ValueError
                         (VList (VStr <$> document_path
                                            (CreateWorkspaceRequest.username
                                               request)))))),
     db).
Proof. intros Hid. unfold_handler. by rewrite Hid. Qed.

Lemma get_all_workspaces_refused request db :
  addressable (GetWorkspacesRequest.username request) = false →
  get_all_workspaces request db
  = (Raise (HTTPException 500
              ("Error getting workspaces: "
               ++ str (ValueError
                         (VList (VStr <$> document_path
                                            (GetWorkspacesRequest.username
                                               request)))))),
     db).
Proof. intros Hid. unfold_handler. by rewrite Hid. Qed.

Lemma delete_workspace_refused request db :
  addressable (DeleteWorkspaceRequest.username request) = false →
  delete_workspace request db
  = (Raise (HTTPException 500
              ("Error deleting workspace: "
               ++ str (ValueError
                         (VList (VStr <$> document_path
                                            (DeleteWorkspaceRequest.username
                                               request)))))),
     db).
Proof. intros Hid. unfold_handler. by rewrite Hid. Qed.

Lemma signup_present request db :
  is_Some (db !! SignupRequest.username request) →
  signup request db
  = (Return {| SignupResponse.status := "error";
               SignupResponse.message := "Username already exists" |}, db).
Proof.
  intros [doc Hdoc]. destruct (lookup_wf _ _ _ Hdoc) as [Hid _].
  unfold_handler. by rewrite Hid; simpl; rewrite Hdoc.
Qed.

Lemma signup_absent request db :
  addressable (SignupRequest.username request) = true →
  db !! SignupRequest.username request = None →
  signup request db
  = (Return {| SignupResponse.status := "success";
               SignupResponse.message := "Account created successfully" |},
     <[SignupRequest.username request := user_data request]> db).
Proof.
  intros Hid Hdoc. unfold_handler. rewrite Hid; simpl. rewrite Hdoc; simpl.
  by rewrite user_data_storable.
Qed.

Lemma create_update_workspace_absent request db :
  addressable (CreateWorkspaceRequest.username request) = true →
  db !! CreateWorkspaceRequest.username request = None →
  create_update_workspace request db
  = (Raise (HTTPException 404 "User not found"), db).
Proof. intros Hid Hdoc. unfold_handler. by rewrite Hid; simpl; rewrite Hdoc. Qed.

Lemma create_update_workspace_dict request db doc d :
  db !! CreateWorkspaceRequest.username request = Some doc →
  default (VDict ∅) (doc !! "workspaces") = VDict d →
  CreateWorkspaceRequest.workspace_name request ≠ "" →
  storable (VDict (CreateWorkspaceRequest.state request)) = true →
  create_update_workspace request db
  = (Return {| CreateWorkspaceResponse.status := "success";
               CreateWorkspaceResponse.message :=
                 "Workspace '"
                 ++ CreateWorkspaceRequest.workspace_name request
                 ++ "' created/updated successfully" |},
     <[CreateWorkspaceRequest.username request :=
         <["workspaces" :=
             VDict (<[CreateWorkspaceRequest.workspace_name request :=
                        VDict (CreateWorkspaceRequest.state request)]> d)]>
           doc]> db).
Proof.
  intros Hdoc Hws Hname Hstate.
  destruct (lookup_wf _ _ _ Hdoc) as [Hid _].
  unfold_handler. rewrite Hid; simpl. rewrite Hdoc; simpl.
  rewrite Hws; simpl.
  rewrite storable_field, storable_insert;
    [|done|done|by eapply stored_workspaces_storable|done].
  by rewrite Hdoc.
Qed.

(** An upsert the client refuses: an empty workspace name or a state it
    cannot store. *)
Lemma create_update_workspace_unstorable request db doc d :
  db !! CreateWorkspaceRequest.username request = Some doc →
  default (VDict ∅) (doc !! "workspaces") = VDict d →
  ¬ (CreateWorkspaceRequest.workspace_name request ≠ ""
     ∧ storable (VDict (CreateWorkspaceRequest.state request)) = true) →
  create_update_workspace request db
  = (Raise (HTTPException 500
              ("Error creating workspace: "
               ++ str (ValueError
                         (VDict
                            {[ "workspaces" :=
                                 VDict (<[CreateWorkspaceRequest.workspace_name
                                            request :=
                                            VDict (CreateWorkspaceRequest.state
                                                     request)]> d) ]})))),
     db).
Proof.
  intros Hdoc Hws Hbad.
  destruct (lookup_wf _ _ _ Hdoc) as [Hid _].
  unfold_handler. rewrite Hid; simpl. rewrite Hdoc; simpl.
  rewrite Hws; simpl.
  destruct (storable (VDict {[ "workspaces" := _ ]})) eqn:Hs; simpl; [|done].
  rewrite storable_field in Hs by done.
  by apply storable_insert_inv in Hs.
Qed.

Lemma create_update_workspace_not_dict request db doc :
  db !! CreateWorkspaceRequest.username request = Some doc →
  as_dict (default (VDict ∅) (doc !! "workspaces")) = None →
  create_update_workspace request db
  = (Raise (HTTPException 500
              ("Error creating workspace: "
               ++ str (TypeError (default (VDict ∅) (doc !! "workspaces"))))),
     db).
Proof.
  intros Hdoc Hws. destruct (lookup_wf _ _ _ Hdoc) as [Hid _].
  unfold_handler. rewrite Hid; simpl. rewrite Hdoc; simpl.
  by destruct (default (VDict ∅) (doc !! "workspaces")).
Qed.

Lemma create_update_workspace_raise request db e db' :
  create_update_workspace request db = (Raise e, db') → db' = db.
Proof.
  unfold_handler.
  destruct (addressable _); simpl; [|by intros [= _ <-]].
  destruct (db !! CreateWorkspaceRequest.username request) as [doc|] eqn:Hdoc;
    simpl; [|by intros [= _ <-]].
  destruct (default (VDict ∅) (doc !! "workspaces")) as [| | | | | |d]; simpl.
  1-6: by intros [= _ <-].
  destruct (storable _); simpl; [|by intros [= _ <-]].
  by rewrite Hdoc.
Qed.

Lemma get_all_workspaces_absent request db :
  addressable (GetWorkspacesRequest.username request) = true →
  db !! GetWorkspacesRequest.username request = None →
  get_all_workspaces request db
  = (Raise (HTTPException 404 "User not found"), db).
Proof. intros Hid Hdoc. unfold_handler. by rewrite Hid; simpl; rewrite Hdoc. Qed.

Lemma get_all_workspaces_account request db doc ws :
  db !! GetWorkspacesRequest.username request = Some doc →
  holds_workspaces doc ws →
  get_all_workspaces request db
  = (Return {| GetWorkspacesResponse.status := "success";
               GetWorkspacesResponse.workspaces := ws |}, db).
Proof.
  intros Hdoc Hws. destruct (lookup_wf _ _ _ Hdoc) as [Hid _].
  unfold_handler. rewrite Hid; simpl. rewrite Hdoc; simpl.
  rewrite (default_workspaces _ _ Hws).
  by rewrite validate_workspaces_states.
Qed.

Lemma delete_workspace_absent request db :
  addressable (DeleteWorkspaceRequest.username request) = true →
  db !! DeleteWorkspaceRequest.username request = None →
  delete_workspace request db
  = (Raise (HTTPException 404 "User not found"), db).
Proof. intros Hid Hdoc. unfold_handler. by rewrite Hid; simpl; rewrite Hdoc. Qed.

Lemma delete_workspace_missing request db doc d :
  db !! DeleteWorkspaceRequest.username request = Some doc →
  default (VDict ∅) (doc !! "workspaces") = VDict d →
  d !! DeleteWorkspaceRequest.workspace_name request = None →
  delete_workspace request db
  = (Raise (HTTPException 404
              ("Workspace '"
               ++ DeleteWorkspaceRequest.workspace_name request
               ++ "' not found")), db).
Proof.
  intros Hdoc Hws Hkey. destruct (lookup_wf _ _ _ Hdoc) as [Hid _].
  unfold_handler. rewrite Hid; simpl. rewrite Hdoc; simpl.
  rewrite Hws; simpl.
  rewrite bool_decide_eq_false_2; [done|].
  rewrite Hkey. by intros [? [=]].
Qed.

Lemma delete_workspace_present request db doc d :
  db !! DeleteWorkspaceRequest.username request = Some doc →
  default (VDict ∅) (doc !! "workspaces") = VDict d →
  is_Some (d !! DeleteWorkspaceRequest.workspace_name request) →
  delete_workspace request db
  = (Return {| DeleteWorkspaceResponse.status := "success";
               DeleteWorkspaceResponse.message :=
                 "Workspace '"
                 ++ DeleteWorkspaceRequest.workspace_name request
                 ++ "' deleted successfully" |},
     <[DeleteWorkspaceRequest.username request :=
         <["workspaces" :=
             VDict (delete (DeleteWorkspaceRequest.workspace_name request) d)]>
           doc]> db).
Proof.
  intros Hdoc Hws Hkey. destruct (lookup_wf _ _ _ Hdoc) as [Hid _].
  unfold_handler. rewrite Hid; simpl. rewrite Hdoc; simpl.
  rewrite Hws; simpl.
  rewrite bool_decide_eq_true_2 by done; simpl.
  destruct Hkey as [x ->]; simpl.
  rewrite storable_field, storable_delete;
    [|by eapply stored_workspaces_storable|done].
  by rewrite Hdoc.
Qed.

Lemma delete_workspace_raise request db e db' :
  delete_workspace request db = (Raise e, db') → db' = db.
Proof.
  unfold_handler.
  destruct (addressable _); simpl; [|by intros [= _ <-]].
  destruct (db !! DeleteWorkspaceRequest.username request) as [doc|] eqn:Hdoc;
    simpl; [|by intros [= _ <-]].
  destruct (default (VDict ∅) (doc !! "workspaces")) as [| | | | |l|d]; simpl.
  1-4: by intros [= _ <-].
  - destruct (bool_decide _); simpl; by intros [= _ <-].
  - destruct (existsb _ l); simpl; by intros [= _ <-].
  - destruct (bool_decide _); simpl; [|by intros [= _ <-]].
    destruct (d !! _); simpl; [|by intros [= _ <-]].
    destruct (storable _); simpl; [|by intros [= _ <-]].
    by rewrite Hdoc.
Qed.

Lemma lookup_replace_workspaces (db : Firestore) id doc d id' :
  db !! id = Some doc → storable (VDict d) = true →
  <[id := <["workspaces" := VDict d]> doc]> db !! id'
  = if decide (id = id') then Some (<["workspaces" := VDict d]> doc)
    else db !! id'.
Proof.
  intros Hdoc Hd. destruct (lookup_wf _ _ _ Hdoc) as [Hid _].
  apply lookup_put; [done|]. by eapply replace_workspaces_storable.
Qed.

Lemma login_absent request db :
  addressable (LoginRequest.username request) = true →
  db !! LoginRequest.username request = None →
  login request db
  = (Return {| LoginResponse.status := "error";
               LoginResponse.message := "Username not found";
               LoginResponse.workspaces := None |}, db).
Proof. intros Hid Hdoc. unfold_handler. by rewrite Hid; simpl; rewrite Hdoc. Qed.

Lemma ne_str_true stored given :
  stored ≠ Some (VStr given) → ne_str stored given = true.
Proof.
  destruct stored as [[| | | |s| |]|]; simpl; try done.
  intros Hne. rewrite bool_decide_eq_false_2; [done|]. congruence.
Qed.

Lemma ne_str_false given : ne_str (Some (VStr given)) given = false.
Proof. simpl. by rewrite bool_decide_eq_true_2. Qed.

Lemma login_wrong_password request db doc :
  db !! LoginRequest.username request = Some doc →
  doc !! "password" ≠ Some (VStr (LoginRequest.password request)) →
  login request db
  = (Return {| LoginResponse.status := "error";
               LoginResponse.message := "Incorrect Password";
               LoginResponse.workspaces := None |}, db).
Proof.
  intros Hdoc Hpw. destruct (lookup_wf _ _ _ Hdoc) as [Hid _].
  unfold_handler. rewrite Hid; simpl. rewrite Hdoc; simpl.
  by rewrite ne_str_true.
Qed.

Lemma login_account request db doc ws :
  db !! LoginRequest.username request = Some doc →
  doc !! "password" = Some (VStr (LoginRequest.password request)) →
  holds_workspaces doc ws →
  login request db
  = (Return {| LoginResponse.status := "success";
               LoginResponse.message := "Successful";
               LoginResponse.workspaces := Some ws |}, db).
Proof.
  intros Hdoc Hpw Hws. destruct (lookup_wf _ _ _ Hdoc) as [Hid _].
  unfold_handler. rewrite Hid; simpl. rewrite Hdoc; simpl.
  rewrite Hpw, ne_str_false; simpl.
  rewrite (default_workspaces _ _ Hws).
  unfold validate_optional_workspaces.
  by rewrite validate_workspaces_states.
Qed.

Lemma signup_cases request db :
  (∃ e, signup request db = (Raise e, db))
  ∨ signup request db = (Return {| SignupResponse.status := "error";
                                   SignupResponse.message :=
                                     "Username already exists" |}, db)
  ∨ addressable (SignupRequest.username request) = true
    ∧ db !! SignupRequest.username request = None
    ∧ signup request db
      = (Return {| SignupResponse.status := "success";
                   SignupResponse.message :=
                     "Account created successfully" |},
         <[SignupRequest.username request := user_data request]> db).
Proof.
  destruct (addressable (SignupRequest.username request)) eqn:Hid.
  - destruct (db !! SignupRequest.username request) as [doc|] eqn:Hdoc.
    + right; left. apply signup_present. by eexists.
    + right; right. split; [done|]. split; [done|]. by apply signup_absent.
  - left. eexists. by apply signup_refused.
Qed.

(** A workspace write either raises and leaves the store alone, or
    replaces the [workspaces] field of the user's document. *)
Lemma create_update_workspace_cases request db :
  (∃ e, create_update_workspace request db = (Raise e, db))
  ∨ ∃ doc d,
      db !! CreateWorkspaceRequest.username request = Some doc
      ∧ default (VDict ∅) (doc !! "workspaces") = VDict d
      ∧ storable
          (VDict (<[CreateWorkspaceRequest.workspace_name request :=
                      VDict (CreateWorkspaceRequest.state request)]> d))
        = true
      ∧ ∃ body,
          create_update_workspace request db
          = (Return body,
             <[CreateWorkspaceRequest.username request :=
                 <["workspaces" :=
                     VDict (<[CreateWorkspaceRequest.workspace_name request :=
                                VDict (CreateWorkspaceRequest.state request)]>
                              d)]> doc]> db)
          ∧ CreateWorkspaceResponse.status body = "success".
Proof.
  destruct (addressable (CreateWorkspaceRequest.username request)) eqn:Hid;
    [|left; eexists; by apply create_update_workspace_refused].
  destruct (db !! CreateWorkspaceRequest.username request) as [doc|] eqn:Hdoc;
    [|left; eexists; by apply create_update_workspace_absent].
  destruct (as_dict (default (VDict ∅) (doc !! "workspaces"))) as [d|] eqn:Hd;
    [|left; eexists; by apply create_update_workspace_not_dict].
  assert (default (VDict ∅) (doc !! "workspaces") = VDict d) as Hws
    by (destruct (default _ _); simpl in Hd; congruence).
  destruct (decide (CreateWorkspaceRequest.workspace_name request = ""))
    as [Hname|Hname].
  { left; eexists. apply (create_update_workspace_unstorable _ _ doc d);
      [done|done|]. by intros [? _]. }
  destruct (storable (VDict (CreateWorkspaceRequest.state request)))
    eqn:Hstate.
  - right. exists doc, d. split; [done|]. split; [done|].
    split.
    { apply storable_insert; [done|done|].
      by eapply stored_workspaces_storable. }
    eexists. split; [by apply create_update_workspace_dict|done].
  - left; eexists. apply (create_update_workspace_unstorable _ _ doc d);
      [done|done|]. intros [_ ?]. congruence.
Qed.

Lemma delete_workspace_cases request db :
  (∃ e, delete_workspace request db = (Raise e, db))
  ∨ ∃ doc d,
      db !! DeleteWorkspaceRequest.username request = Some doc
      ∧ default (VDict ∅) (doc !! "workspaces") = VDict d
      ∧ is_Some (d !! DeleteWorkspaceRequest.workspace_name request)
      ∧ storable
          (VDict (delete (DeleteWorkspaceRequest.workspace_name request) d))
        = true
      ∧ ∃ body,
          delete_workspace request db
          = (Return body,
             <[DeleteWorkspaceRequest.username request :=
                 <["workspaces" :=
                     VDict (delete
                              (DeleteWorkspaceRequest.workspace_name request)
                              d)]> doc]> db)
          ∧ DeleteWorkspaceResponse.status body = "success".
Proof.
  destruct (delete_workspace request db) as [[body|e] db'] eqn:Hrun;
    [|left; exists e; by rewrite (delete_workspace_raise _ _ _ _ Hrun)].
  right.
  destruct (addressable (DeleteWorkspaceRequest.username request)) eqn:Hid;
    [|by rewrite delete_workspace_refused in Hrun].
  destruct (db !! DeleteWorkspaceRequest.username request) as [doc|] eqn:Hdoc;
    [|by rewrite delete_workspace_absent in Hrun].
  destruct (default (VDict ∅) (doc !! "workspaces")) as [| | | | |l|d] eqn:Hws.
  1-4: exfalso; revert Hrun; unfold_handler;
    rewrite Hid; simpl; rewrite Hdoc; simpl; rewrite Hws; simpl; discriminate.
  - exfalso; revert Hrun; unfold_handler.
    rewrite Hid; simpl; rewrite Hdoc; simpl; rewrite Hws; simpl.
    by destruct (bool_decide _).
  - exfalso; revert Hrun; unfold_handler.
    rewrite Hid; simpl; rewrite Hdoc; simpl; rewrite Hws; simpl.
    by destruct (existsb _ l).
  - destruct (d !! DeleteWorkspaceRequest.workspace_name request)
      as [x|] eqn:Hkey;
      [|by rewrite (delete_workspace_missing _ _ _ _ Hdoc Hws Hkey) in Hrun].
    exists doc, d. do 3 (split; [by eauto|]).
    split; [by eapply storable_delete, stored_workspaces_storable|].
    rewrite (delete_workspace_present _ _ _ _ Hdoc Hws) in Hrun by eauto.
    injection Hrun as <- <-. by eexists.
Qed.

(** *** Routing *)

Lemma route_run {A : Type} (wrap : A → Response) (h : Handler A) db :
  route wrap h db
  = (match (h db).1 with
     | Return body => Return (wrap body)
     | Raise e => Raise e
     end, (h db).2).
Proof.
  unfold route, mbind, Handler_bind, mret, Handler_ret.
  by destruct (h db) as [[body|e] db'].
Qed.

(** The store after a request: the store before, or the store before with
    one document written, which is a new account or an old document with
    its [workspaces] field replaced by a dict. *)
Lemma app_store req (db : Firestore) :
  (app req db).2 = db
  ∨ (∃ request,
       req = POST_signup request
       ∧ addressable (SignupRequest.username request) = true
       ∧ db !! SignupRequest.username request = None
       ∧ (app req db).2
         = <[SignupRequest.username request := user_data request]> db)
  ∨ ∃ id doc d d',
      request_username req = Some id
      ∧ db !! id = Some doc
      ∧ default (VDict ∅) (doc !! "workspaces") = VDict d
      ∧ storable (VDict d') = true
      ∧ (d' = d
         ∨ ∃ name (S : gmap string value),
             d' = <[name := VDict S]> d ∨ d' = delete name d)
      ∧ (app req db).2 = <[id := <["workspaces" := VDict d']> doc]> db.
Proof.
  destruct req as [|r|r|r|r|r]; simpl; rewrite ?route_run; simpl.
  - by left.
  - left. apply login_store.
  - destruct (signup_cases r db) as [[e ->] | [-> | (Hid & Hdoc & ->)]];
      simpl; [by left|by left|].
    right; left. by exists r.
  - destruct (create_update_workspace_cases r db)
      as [[e ->] | (doc & d & Hdoc & Hws & Hs & body & -> & _)]; simpl;
      [by left|].
    right; right. eexists _, doc, d, _.
    do 4 (split; [done|]). split; [|done].
    right. eexists _, _. by left.
  - left. apply get_all_workspaces_store.
  - destruct (delete_workspace_cases r db)
      as [[e ->] | (doc & d & Hdoc & Hws & _ & Hs & body & -> & _)]; simpl;
      [by left|].
    right; right. eexists _, doc, d, _.
    do 4 (split; [done|]). split; [|done].
    right. eexists _, ∅. by right.
Qed.

Lemma app_keeps_fields req (db : Firestore) username doc :
  db !! username = Some doc →
  ∃ doc',
    (app req db).2 !! username = Some doc'
    ∧ ∀ field, field ≠ "workspaces" → doc' !! field = doc !! field.
Proof.
  intros Hdoc.
  destruct (app_store req db)
    as [-> | [(r & _ & Hid & Hfresh & ->)
             | (id & doc0 & d & d' & _ & Hdoc0 & _ & Hs & _ & ->)]].
  - by exists doc.
  - exists doc. split; [|done].
    rewrite lookup_put by (done || apply user_data_storable).
    case_decide as Hu; [|done]. rewrite Hu in Hfresh. congruence.
  - rewrite (lookup_replace_workspaces _ _ _ _ _ Hdoc0 Hs).
    case_decide as Hu; [|by exists doc].
    subst id. rewrite Hdoc in Hdoc0. injection Hdoc0 as <-.
    eexists. split; [done|].
    intros field Hfield. by rewrite lookup_insert_ne.
Qed.

Lemma app_keeps_documents req (db : Firestore) username :
  is_Some (db !! username) → is_Some ((app req db).2 !! username).
Proof.
  intros [doc Hdoc].
  destruct (app_keeps_fields req db username doc Hdoc) as (doc' & -> & _).
  by eexists.
Qed.

Lemma serve_keeps_documents reqs (db : Firestore) username :
  is_Some (db !! username) → is_Some (serve reqs db !! username).
Proof.
  revert db. induction reqs as [|req reqs IH]; intros db Hin; simpl; [done|].
  apply IH. by apply app_keeps_documents.
Qed.

(** *** The data model is an invariant of the service *)

Lemma user_data_is_account request :
  is_account (SignupRequest.username request) (user_data request).
Proof.
  unfold user_data. split.
  - by simplify_map_eq.
  - eexists. by simplify_map_eq.
  - eexists. by simplify_map_eq.
  - eexists. by simplify_map_eq.
  - exists ∅. unfold holds_workspaces. rewrite fmap_empty. by simplify_map_eq.
Qed.

Lemma replace_workspaces_is_account username doc ws :
  is_account username doc →
  is_account username (<["workspaces" := VDict (VDict <$> ws)]> doc).
Proof.
  intros [Hu [p Hp] [n Hn] [e He] _].
  split; try (eexists; rewrite lookup_insert_ne by done; eassumption).
  - by rewrite lookup_insert_ne.
  - exists ws. apply holds_workspaces_insert.
Qed.

Lemma app_accounts_only req db :
  accounts_only db → accounts_only (app req db).2.
Proof.
  intros Hok.
  destruct (app_store req db)
    as [-> | [(r & _ & Hid & Hfresh & ->)
             | (id & doc0 & d & d' & _ & Hdoc0 & Hd & Hs & Hd' & ->)]].
  - done.
  - intros u doc.
    rewrite lookup_put by (done || apply user_data_storable).
    case_decide as Hu; [|apply Hok].
    intros [= <-]. subst u. apply user_data_is_account.
  - intros u doc.
    rewrite (lookup_replace_workspaces _ _ _ _ _ Hdoc0 Hs).
    case_decide as Hu; [|apply Hok].
    intros [= <-]. subst u.
    destruct (account_workspaces _ _ (Hok _ _ Hdoc0)) as [ws Hhold].
    rewrite (default_workspaces _ _ Hhold) in Hd. injection Hd as <-.
    destruct Hd' as [->|(name & S & [->| ->])].
    + apply replace_workspaces_is_account. by apply Hok.
    + rewrite <- (fmap_insert VDict).
      apply replace_workspaces_is_account. by apply Hok.
    + rewrite <- (fmap_delete VDict).
      apply replace_workspaces_is_account. by apply Hok.
Qed.

(** Every store the service reaches from an empty collection holds
    accounts only, so the shape the workspace properties below ask of a
    document is the shape of every document the service ever stores. *)
Lemma reachable_accounts_only db : reachable db → accounts_only db.
Proof.
  induction 1 as [|db req _ IH].
  - intros u doc. unfold lookup, Firestore_lookup. simpl.
    by rewrite lookup_empty.
  - by apply app_accounts_only.
Qed.

(** ** The properties of section 8 *)

(** C1 (amended): for a username that the Firestore client accepts as a
    document id and that is not in the store, [signup] answers with status
    success, and a [login] with the same username and password that
    follows it answers with status success and an empty workspace map. *)
Theorem signup_then_login (db : Firestore) (u p name email : string) :
  addressable u = true →
  db !! u = None →
  let signed :=
    signup {| SignupRequest.username := u; SignupRequest.password := p;
              SignupRequest.name := name; SignupRequest.email := email |} db in
  signed.1 = Return {| SignupResponse.status := "success";
                       SignupResponse.message :=
                         "Account created successfully" |}
  ∧ (login {| LoginRequest.username := u; LoginRequest.password := p |}
       signed.2).1
    = Return {| LoginResponse.status := "success";
                LoginResponse.message := "Successful";
                LoginResponse.workspaces := Some ∅ |}.
Proof.
  intros Hid Hfresh signed. subst signed.
  set (request := {| SignupRequest.username := u; SignupRequest.password := p;
                     SignupRequest.name := name;
                     SignupRequest.email := email |}).
  rewrite (signup_absent request db Hid Hfresh). simpl. split; [done|].
  rewrite (login_account
             {| LoginRequest.username := u; LoginRequest.password := p |}
             _ (user_data request) ∅); [done| | |].
  - simpl. apply lookup_put_eq; [done|apply user_data_storable].
  - unfold user_data. by simplify_map_eq.
  - unfold holds_workspaces, user_data. rewrite fmap_empty.
    by simplify_map_eq.
Qed.

(** C2 (amended): for an existing user whose document holds the workspace
    map [ws], a workspace name [W] that is not empty and states [S] and
    [S2] that the Firestore client accepts to write (no empty key at any
    depth of nested dicts, integers within 64 bits): an upsert of [W] with
    [S] succeeds and the list that follows returns a map in which [W] is
    bound to exactly [S]; a second upsert of [W] with [S2] makes the
    listed entry exactly [S2]: the entry is overwritten as a whole,
    nothing of [S] is kept. *)
Theorem upsert_then_list (db : Firestore) (u : string) (doc : document)
    (ws : gmap string state) (W : string) (S S2 : state) :
  db !! u = Some doc →
  holds_workspaces doc ws →
  W ≠ "" →
  storable (VDict S) = true →
  storable (VDict S2) = true →
  let listing := {| GetWorkspacesRequest.username := u |} in
  let first :=
    create_update_workspace
      {| CreateWorkspaceRequest.username := u;
         CreateWorkspaceRequest.workspace_name := W;
         CreateWorkspaceRequest.state := S |} db in
  let second :=
    create_update_workspace
      {| CreateWorkspaceRequest.username := u;
         CreateWorkspaceRequest.workspace_name := W;
         CreateWorkspaceRequest.state := S2 |} first.2 in
  (∃ body, first.1 = Return body
           ∧ CreateWorkspaceResponse.status body = "success")
  ∧ (∃ listed,
       (get_all_workspaces listing first.2).1
       = Return {| GetWorkspacesResponse.status := "success";
                   GetWorkspacesResponse.workspaces := listed |}
       ∧ listed !! W = Some S
       ∧ listed = <[W := S]> ws)
  ∧ (∃ body, second.1 = Return body
             ∧ CreateWorkspaceResponse.status body = "success")
  ∧ (∃ listed,
       (get_all_workspaces listing second.2).1
       = Return {| GetWorkspacesResponse.status := "success";
                   GetWorkspacesResponse.workspaces := listed |}
       ∧ listed !! W = Some S2
       ∧ listed = <[W := S2]> ws).
Proof.
  intros Hdoc Hws HW HS HS2 listing first second.
  subst listing first second.
  pose proof (stored_workspaces_storable _ _ _ _ Hdoc Hws) as Hstored.
  rewrite (create_update_workspace_dict
             {| CreateWorkspaceRequest.username := u;
                CreateWorkspaceRequest.workspace_name := W;
                CreateWorkspaceRequest.state := S |} db doc _ Hdoc Hws HW HS).
  simpl.
  set (d1 := <[W := VDict S]> (VDict <$> ws)).
  assert (storable (VDict d1) = true) as Hs1 by by apply storable_insert.
  set (doc1 := <["workspaces" := VDict d1]> doc).
  assert (<[u := doc1]> db !! u = Some doc1) as Hdoc1.
  { unfold doc1. rewrite (lookup_replace_workspaces _ _ _ _ _ Hdoc Hs1).
    by rewrite decide_True. }
  assert (default (VDict ∅) (doc1 !! "workspaces") = VDict d1) as Hws1.
  { unfold doc1. by rewrite lookup_insert_eq. }
  rewrite (create_update_workspace_dict
             {| CreateWorkspaceRequest.username := u;
                CreateWorkspaceRequest.workspace_name := W;
                CreateWorkspaceRequest.state := S2 |} _ doc1 _
             Hdoc1 Hws1 HW HS2).
  simpl.
  set (d2 := <[W := VDict S2]> d1).
  assert (storable (VDict d2) = true) as Hs2 by by apply storable_insert.
  assert (d1 = VDict <$> <[W := S]> ws) as Hd1
    by (unfold d1; by rewrite fmap_insert).
  assert (d2 = VDict <$> <[W := S2]> ws) as Hd2.
  { unfold d2, d1. by rewrite insert_insert_eq, fmap_insert. }
  split; [by eexists|]. split; [|split; [by eexists|]].
  - exists (<[W := S]> ws).
    rewrite (get_all_workspaces_account
               {| GetWorkspacesRequest.username := u |} _ doc1
               (<[W := S]> ws) Hdoc1).
    + by rewrite lookup_insert_eq.
    + unfold holds_workspaces. by rewrite Hws1, Hd1.
  - exists (<[W := S2]> ws).
    rewrite (get_all_workspaces_account
               {| GetWorkspacesRequest.username := u |} _
               (<["workspaces" := VDict d2]> doc1) (<[W := S2]> ws)).
    + by rewrite lookup_insert_eq.
    + simpl. rewrite (lookup_replace_workspaces _ _ _ _ _ Hdoc1 Hs2).
      by rewrite decide_True.
    + unfold holds_workspaces. by rewrite lookup_insert_eq, Hd2.
Qed.

(** C3: for a username that is already in the store, [signup] answers
    HTTP 200 with status error and message "Username already exists", and
    the store, the existing account document with all its fields
    included, is as it was. *)
Theorem signup_existing (db : Firestore) (u p name email : string)
    (doc : document) :
  db !! u = Some doc →
  let signed :=
    signup {| SignupRequest.username := u; SignupRequest.password := p;
              SignupRequest.name := name; SignupRequest.email := email |} db in
  signed.1 = Return {| SignupResponse.status := "error";
                       SignupResponse.message := "Username already exists" |}
  ∧ http_status signed.1 = 200%Z
  ∧ signed.2 !! u = Some doc
  ∧ signed.2 = db.
Proof.
  intros Hdoc signed. subst signed.
  rewrite (signup_present
             {| SignupRequest.username := u; SignupRequest.password := p;
                SignupRequest.name := name; SignupRequest.email := email |} db)
    by (simpl; eauto).
  by simpl.
Qed.

(** C4 (amended): a failed login is an HTTP 200 response with an error
    body.  For a username that the Firestore client accepts as a document
    id and that is not in the store the message is "Username not found";
    for an existing username whose stored password is not the given one
    the message is "Incorrect Password"; either way the [workspaces] field
    of the response is empty ([None]). *)
Theorem login_failures (db : Firestore) (u p : string) :
  let answer :=
    (login {| LoginRequest.username := u; LoginRequest.password := p |} db).1 in
  (addressable u = true →
   db !! u = None →
   answer = Return {| LoginResponse.status := "error";
                      LoginResponse.message := "Username not found";
                      LoginResponse.workspaces := None |}
   ∧ http_status answer = 200%Z)
  ∧ (∀ doc,
       db !! u = Some doc →
       doc !! "password" ≠ Some (VStr p) →
       answer = Return {| LoginResponse.status := "error";
                          LoginResponse.message := "Incorrect Password";
                          LoginResponse.workspaces := None |}
       ∧ http_status answer = 200%Z).
Proof.
  intros answer. subst answer. split.
  - intros Hid Hdoc.
    by rewrite (login_absent
                  {| LoginRequest.username := u; LoginRequest.password := p |}).
  - intros doc Hdoc Hpw.
    by rewrite (login_wrong_password
                  {| LoginRequest.username := u; LoginRequest.password := p |}
                  _ doc).
Qed.

(** C5: for an existing user whose document holds the workspace map
    [ws]: deleting a name [W] that [ws] does not bind is answered with
    HTTP 404 and a detail that names [W]; deleting a name that [ws] binds
    is answered with status success, and the list that follows returns a
    map that does not bind [W]. *)
Theorem delete_workspace_outcomes (db : Firestore) (u : string)
    (doc : document) (ws : gmap string state) (W : string) :
  db !! u = Some doc →
  holds_workspaces doc ws →
  let deleted :=
    delete_workspace {| DeleteWorkspaceRequest.username := u;
                        DeleteWorkspaceRequest.workspace_name := W |} db in
  (ws !! W = None →
   deleted.1 = Raise (HTTPException 404 ("Workspace '" ++ W ++ "' not found"))
   ∧ http_status deleted.1 = 404%Z)
  ∧ (is_Some (ws !! W) →
     (∃ body, deleted.1 = Return body
              ∧ DeleteWorkspaceResponse.status body = "success")
     ∧ ∃ listed,
         (get_all_workspaces {| GetWorkspacesRequest.username := u |}
            deleted.2).1
         = Return {| GetWorkspacesResponse.status := "success";
                     GetWorkspacesResponse.workspaces := listed |}
         ∧ listed !! W = None).
Proof.
  intros Hdoc Hws deleted. subst deleted.
  pose proof (default_workspaces _ _ Hws) as Hdef.
  pose proof (stored_workspaces_storable _ _ _ _ Hdoc Hws) as Hstored.
  set (request := {| DeleteWorkspaceRequest.username := u;
                     DeleteWorkspaceRequest.workspace_name := W |}).
  split.
  - intros Hkey.
    rewrite (delete_workspace_missing request db doc _ Hdoc Hdef).
    + done.
    + simpl. by rewrite lookup_fmap, Hkey.
  - intros Hkey.
    rewrite (delete_workspace_present request db doc _ Hdoc Hdef).
    + simpl. split; [by eexists|].
      exists (delete W ws).
      rewrite (get_all_workspaces_account
                 {| GetWorkspacesRequest.username := u |} _
                 (<["workspaces" := VDict (delete W (VDict <$> ws))]> doc)
                 (delete W ws)).
      * by rewrite lookup_delete_eq.
      * simpl. rewrite (lookup_replace_workspaces _ _ _ _ _ Hdoc)
          by by apply storable_delete.
        by rewrite decide_True.
      * rewrite <- (fmap_delete VDict). apply holds_workspaces_insert.
    + simpl. rewrite lookup_fmap. destruct Hkey as [x ->]. by eexists.
Qed.

(** C6 (amended): for a username that the Firestore client accepts as a
    document id and that is not in the store, the upsert, list and delete
    endpoints each answer HTTP 404, and login answers HTTP 200 with an
    error body. *)
Theorem unknown_username (db : Firestore) (u : string) :
  addressable u = true →
  db !! u = None →
  ∀ (W p : string) (S : state),
    http_status
      (create_update_workspace
         {| CreateWorkspaceRequest.username := u;
            CreateWorkspaceRequest.workspace_name := W;
            CreateWorkspaceRequest.state := S |} db).1 = 404%Z
    ∧ http_status
        (get_all_workspaces {| GetWorkspacesRequest.username := u |} db).1
      = 404%Z
    ∧ http_status
        (delete_workspace
           {| DeleteWorkspaceRequest.username := u;
              DeleteWorkspaceRequest.workspace_name := W |} db).1 = 404%Z
    ∧ http_status
        (login {| LoginRequest.username := u; LoginRequest.password := p |}
           db).1 = 200%Z
    ∧ ∃ body,
        (login {| LoginRequest.username := u; LoginRequest.password := p |}
           db).1 = Return body
        ∧ LoginResponse.status body = "error".
Proof.
  intros Hid Hdoc W p S.
  rewrite (create_update_workspace_absent
             {| CreateWorkspaceRequest.username := u;
                CreateWorkspaceRequest.workspace_name := W;
                CreateWorkspaceRequest.state := S |}) by done.
  rewrite (get_all_workspaces_absent
             {| GetWorkspacesRequest.username := u |}) by done.
  rewrite (delete_workspace_absent
             {| DeleteWorkspaceRequest.username := u;
                DeleteWorkspaceRequest.workspace_name := W |}) by done.
  rewrite (login_absent
             {| LoginRequest.username := u; LoginRequest.password := p |})
    by done.
  simpl. do 4 (split; [done|]). by eexists.
Qed.

(** C7: for an existing user, after an upsert or a delete of one of the
    user's workspaces the user's document is still there and every field
    of it other than [workspaces] (so [username], [password], [name] and
    [email]) is as before; and no sequence of requests to the service
    removes the user's document from the store. *)
Theorem workspace_writes_touch_workspaces_only (db : Firestore) (u : string)
    (doc : document) :
  db !! u = Some doc →
  (∀ (W : string) (S : state),
     ∃ doc',
       (create_update_workspace
          {| CreateWorkspaceRequest.username := u;
             CreateWorkspaceRequest.workspace_name := W;
             CreateWorkspaceRequest.state := S |} db).2 !! u = Some doc'
       ∧ ∀ field, field ≠ "workspaces" → doc' !! field = doc !! field)
  ∧ (∀ W : string,
       ∃ doc',
         (delete_workspace
            {| DeleteWorkspaceRequest.username := u;
               DeleteWorkspaceRequest.workspace_name := W |} db).2 !! u
         = Some doc'
         ∧ ∀ field, field ≠ "workspaces" → doc' !! field = doc !! field)
  ∧ (∀ reqs : list Request, is_Some (serve reqs db !! u)).
Proof.
  intros Hdoc. split; [|split].
  - intros W S.
    destruct (create_update_workspace_cases
                {| CreateWorkspaceRequest.username := u;
                   CreateWorkspaceRequest.workspace_name := W;
                   CreateWorkspaceRequest.state := S |} db)
      as [[e ->] | (doc0 & d & Hdoc0 & _ & Hs & body & -> & _)]; simpl in *.
    + by exists doc.
    + rewrite Hdoc in Hdoc0. injection Hdoc0 as <-.
      rewrite (lookup_replace_workspaces _ _ _ _ _ Hdoc Hs), decide_True by done.
      eexists. split; [done|].
      intros field Hfield. by rewrite lookup_insert_ne.
  - intros W.
    destruct (delete_workspace_cases
                {| DeleteWorkspaceRequest.username := u;
                   DeleteWorkspaceRequest.workspace_name := W |} db)
      as [[e ->] | (doc0 & d & Hdoc0 & _ & _ & Hs & body & -> & _)];
      simpl in *.
    + by exists doc.
    + rewrite Hdoc in Hdoc0. injection Hdoc0 as <-.
      rewrite (lookup_replace_workspaces _ _ _ _ _ Hdoc Hs), decide_True by done.
      eexists. split; [done|].
      intros field Hfield. by rewrite lookup_insert_ne.
  - intros reqs. apply serve_keeps_documents. by eexists.
Qed.

(** C8: for an existing user whose document holds the workspace map
    [ws], and a workspace name [W]: after an upsert of [W] the document
    holds a map that agrees with [ws] on every other name [W2] (bound to
    the same state, or still unbound); after a delete of [W] the document
    holds a map that does not bind [W] and agrees with [ws] on every other
    name. *)
Theorem other_workspaces_unchanged (db : Firestore) (u : string)
    (doc : document) (ws : gmap string state) (W : string) :
  db !! u = Some doc →
  holds_workspaces doc ws →
  (∀ S : state,
     ∃ doc' ws',
       (create_update_workspace
          {| CreateWorkspaceRequest.username := u;
             CreateWorkspaceRequest.workspace_name := W;
             CreateWorkspaceRequest.state := S |} db).2 !! u = Some doc'
       ∧ holds_workspaces doc' ws'
       ∧ ∀ W2, W2 ≠ W → ws' !! W2 = ws !! W2)
  ∧ (∃ doc' ws',
       (delete_workspace
          {| DeleteWorkspaceRequest.username := u;
             DeleteWorkspaceRequest.workspace_name := W |} db).2 !! u
       = Some doc'
       ∧ holds_workspaces doc' ws'
       ∧ ws' !! W = None
       ∧ ∀ W2, W2 ≠ W → ws' !! W2 = ws !! W2).
Proof.
  intros Hdoc Hws.
  pose proof (default_workspaces _ _ Hws) as Hdef.
  split.
  - intros S.
    destruct (create_update_workspace_cases
                {| CreateWorkspaceRequest.username := u;
                   CreateWorkspaceRequest.workspace_name := W;
                   CreateWorkspaceRequest.state := S |} db)
      as [[e ->] | (doc0 & d & Hdoc0 & Hd & Hs & body & -> & _)]; simpl in *.
    + by exists doc, ws.
    + rewrite Hdoc in Hdoc0. injection Hdoc0 as <-.
      rewrite Hdef in Hd. injection Hd as <-.
      rewrite (lookup_replace_workspaces _ _ _ _ _ Hdoc Hs), decide_True by done.
      eexists. exists (<[W := S]> ws).
      split; [done|]. split.
      * rewrite <- (fmap_insert VDict). apply holds_workspaces_insert.
      * intros W2 HW2. by rewrite lookup_insert_ne.
  - set (request := {| DeleteWorkspaceRequest.username := u;
                       DeleteWorkspaceRequest.workspace_name := W |}).
    destruct (ws !! W) as [S|] eqn:Hkey.
    + rewrite (delete_workspace_present request db doc _ Hdoc Hdef)
        by (simpl; rewrite lookup_fmap, Hkey; by eexists).
      simpl.
      rewrite (lookup_replace_workspaces _ _ _ _ _ Hdoc)
        by (by eapply storable_delete, stored_workspaces_storable).
      rewrite decide_True by done.
      eexists. exists (delete W ws).
      split; [done|]. split.
      * rewrite <- (fmap_delete VDict). apply holds_workspaces_insert.
      * split; [apply lookup_delete_eq|].
        intros W2 HW2. by rewrite lookup_delete_ne.
    + rewrite (delete_workspace_missing request db doc _ Hdoc Hdef)
        by (simpl; by rewrite lookup_fmap, Hkey).
      simpl. by exists doc, ws.
Qed.

(** C9: login and list-workspaces are read-only: whatever the request and
    whatever the answer, the store after the request is the store before
    it. *)
Theorem login_and_list_read_only (db : Firestore)
    (credentials : LoginRequest.t) (listing : GetWorkspacesRequest.t) :
  (login credentials db).2 = db
  ∧ (get_all_workspaces listing db).2 = db.
Proof.
  split; [apply login_store | apply get_all_workspaces_store].
Qed.

(** C10: whenever a request to any endpoint is answered with a domain
    error (HTTP 200 with status error in the body) or with HTTP 404, the
    store after the request is exactly the store before it. *)
Theorem error_answers_leave_store (req : Request) (db : Firestore) :
  domain_error (app req db).1 ∨ http_status (app req db).1 = 404%Z →
  (app req db).2 = db.
Proof.
  destruct req as [|r|r|r|r|r]; simpl; rewrite ?route_run; simpl.
  - done.
  - intros _. apply login_store.
  - destruct (signup_cases r db) as [[e ->] | [-> | (_ & _ & ->)]]; simpl;
      [done|done|].
    by intros [?|?].
  - destruct (create_update_workspace_cases r db)
      as [[e ->] | (doc & d & _ & _ & _ & body & -> & Hbody)]; simpl; [done|].
    rewrite Hbody. by intros [?|?].
  - intros _. apply get_all_workspaces_store.
  - destruct (delete_workspace_cases r db)
      as [[e ->] | (doc & d & _ & _ & _ & _ & body & -> & Hbody)]; simpl;
      [done|].
    rewrite Hbody. by intros [?|?].
Qed.

(** ** Further properties of the handlers *)

(** *** Auxiliary facts *)

Lemma dom_put (db : Firestore) id doc :
  addressable id = true → storable (VDict doc) = true →
  dom (<[id := doc]> db) = {[ id ]} ∪ dom db.
Proof.
  intros Hid Hdoc.
  change (dom (documents (<[id := doc]> db)) = {[ id ]} ∪ dom (documents db)).
  rewrite documents_put by done. apply dom_insert_L.
Qed.

Lemma dom_put_present (db : Firestore) id doc doc' :
  db !! id = Some doc → storable (VDict doc') = true →
  dom (<[id := doc']> db) = dom db.
Proof.
  intros Hdoc Hdoc'. destruct (lookup_wf _ _ _ Hdoc) as [Hid _].
  rewrite dom_put by done.
  apply subseteq_union_1_L, singleton_subseteq_l.
  change (id ∈ dom (documents db)). apply elem_of_dom. by exists doc.
Qed.

(** *** Frame and invariants over all routes *)

(** X1: a request leaves the document of every username other than the
    one it names exactly as it was (present and equal, or still absent). *)
Theorem other_users_untouched (req : Request) (db : Firestore)
    (other : string) :
  request_username req ≠ Some other →
  (app req db).2 !! other = db !! other.
Proof.
  intros Hother.
  destruct (app_store req db)
    as [-> | [(r & -> & Hid & Hfresh & ->)
             | (id & doc0 & d & d' & Hreq & Hdoc0 & _ & Hs & _ & ->)]].
  - done.
  - simpl in Hother. apply lookup_put_ne. congruence.
  - rewrite (lookup_replace_workspaces _ _ _ _ _ Hdoc0 Hs).
    rewrite decide_False; [done|]. congruence.
Qed.

(** X2: the set of document ids changes only through signup: after a
    signup of a username that the Firestore client accepts as a document
    id it is the old set with that username added (the same set when the
    username was taken); after a signup the client refuses, and after any
    other request, it is the old set. *)
Theorem usernames_grow_only_by_signup (req : Request) (db : Firestore) :
  dom (app req db).2
  = match req with
    | POST_signup request =>
        if addressable (SignupRequest.username request)
        then {[ SignupRequest.username request ]} ∪ dom db
        else dom db
    | _ => dom db
    end.
Proof.
  destruct req as [|r|r|r|r|r]; simpl; rewrite ?route_run; simpl.
  - done.
  - by rewrite login_store.
  - destruct (addressable (SignupRequest.username r)) eqn:Hid.
    + destruct (db !! SignupRequest.username r) as [doc|] eqn:Hdoc.
      * rewrite signup_present by eauto. simpl. symmetry.
        apply subseteq_union_1_L, singleton_subseteq_l.
        change (SignupRequest.username r ∈ dom (documents db)).
        apply elem_of_dom. by exists doc.
      * rewrite signup_absent by done. simpl.
        apply dom_put; [done|apply user_data_storable].
    + by rewrite signup_refused.
  - destruct (create_update_workspace_cases r db)
      as [[e ->] | (doc & d & Hdoc & _ & Hs & body & -> & _)]; simpl; [done|].
    apply (dom_put_present _ _ doc); [done|].
    by eapply replace_workspaces_storable.
  - by rewrite get_all_workspaces_store.
  - destruct (delete_workspace_cases r db)
      as [[e ->] | (doc & d & Hdoc & _ & _ & Hs & body & -> & _)]; simpl;
      [done|].
    apply (dom_put_present _ _ doc); [done|].
    by eapply replace_workspaces_storable.
Qed.

(** X3: whatever requests are served, an existing document stays in the
    store and every field of it other than [workspaces] keeps its value:
    no route changes a stored username, password, name or email, and a
    signup with a taken username does not overwrite the account. *)
Theorem credentials_never_change (reqs : list Request) (db : Firestore)
    (u : string) (doc : document) :
  db !! u = Some doc →
  ∃ doc',
    serve reqs db !! u = Some doc'
    ∧ ∀ field, field ≠ "workspaces" → doc' !! field = doc !! field.
Proof.
  revert db doc. induction reqs as [|req reqs IH]; intros db doc Hdoc; simpl.
  - by exists doc.
  - destruct (app_keeps_fields req db u doc Hdoc) as (doc1 & Hdoc1 & Hsame1).
    destruct (IH _ _ Hdoc1) as (doc2 & Hdoc2 & Hsame2).
    exists doc2. split; [done|].
    intros field Hfield. rewrite Hsame2, Hsame1; done.
Qed.

(** X4: serving requests keeps the data model: if every document of the
    store is an account stored under its own username, with string
    credentials and a [workspaces] map of states, the same holds after any
    sequence of requests. *)
Theorem serve_accounts_only (reqs : list Request) (db : Firestore) :
  accounts_only db → accounts_only (serve reqs db).
Proof.
  revert db. induction reqs as [|req reqs IH]; intros db Hok; simpl; [done|].
  apply IH. by apply app_accounts_only.
Qed.

(** *** Login *)

Lemma ne_str_false_inv stored given :
  ne_str stored given = false → stored = Some (VStr given).
Proof.
  destruct stored as [[| | | |s| |]|]; simpl; try done.
  case_bool_decide; [by subst|done].
Qed.

(** X5: for a document whose stored password is the given one and whose
    [workspaces] field is the map [ws], login answers success with exactly
    the map that list-workspaces returns for the same user. *)
Theorem login_returns_listed_workspaces (db : Firestore) (u p : string)
    (doc : document) (ws : gmap string state) :
  db !! u = Some doc →
  doc !! "password" = Some (VStr p) →
  holds_workspaces doc ws →
  (login {| LoginRequest.username := u; LoginRequest.password := p |} db).1
  = Return {| LoginResponse.status := "success";
              LoginResponse.message := "Successful";
              LoginResponse.workspaces := Some ws |}
  ∧ (get_all_workspaces {| GetWorkspacesRequest.username := u |} db).1
    = Return {| GetWorkspacesResponse.status := "success";
                GetWorkspacesResponse.workspaces := ws |}.
Proof.
  intros Hdoc Hpw Hws. split.
  - by rewrite (login_account
                  {| LoginRequest.username := u; LoginRequest.password := p |}
                  db doc ws).
  - by rewrite (get_all_workspaces_account
                  {| GetWorkspacesRequest.username := u |} db doc ws).
Qed.

(** X6: login gives out workspace data, or status success, only when the
    username has a document whose stored password is a string equal to
    the given password. *)
Theorem login_discloses_only_on_match (db : Firestore) (u p : string)
    (body : LoginResponse.t) :
  (login {| LoginRequest.username := u; LoginRequest.password := p |} db).1
  = Return body →
  LoginResponse.status body = "success"
  ∨ is_Some (LoginResponse.workspaces body) →
  ∃ doc, db !! u = Some doc ∧ doc !! "password" = Some (VStr p).
Proof.
  unfold_handler.
  destruct (addressable u); simpl; [|done].
  destruct (db !! u) as [doc|] eqn:Hdoc; simpl.
  - destruct (ne_str (doc !! "password") p) eqn:Hpw; simpl.
    + intros [= <-]; simpl. intros [?|[? ?]]; done.
    + intros _ _. exists doc. split; [done|]. by apply ne_str_false_inv.
  - intros [= <-]; simpl. intros [?|[? ?]]; done.
Qed.

(** X7: the first signup of a username wins: for a username that the
    Firestore client accepts as a document id and that is not in the
    store, a second signup with the same username, whatever its other
    fields, is answered with the "already exists" error and writes
    nothing; the first password still logs in, and a different second
    password does not. *)
Theorem first_signup_wins (db : Firestore)
    (u p1 name1 email1 p2 name2 email2 : string) :
  addressable u = true →
  db !! u = None →
  let db1 :=
    (signup {| SignupRequest.username := u; SignupRequest.password := p1;
               SignupRequest.name := name1;
               SignupRequest.email := email1 |} db).2 in
  signup {| SignupRequest.username := u; SignupRequest.password := p2;
            SignupRequest.name := name2; SignupRequest.email := email2 |} db1
  = (Return {| SignupResponse.status := "error";
               SignupResponse.message := "Username already exists" |}, db1)
  ∧ (login {| LoginRequest.username := u; LoginRequest.password := p1 |}
       db1).1
    = Return {| LoginResponse.status := "success";
                LoginResponse.message := "Successful";
                LoginResponse.workspaces := Some ∅ |}
  ∧ (p2 ≠ p1 →
     (login {| LoginRequest.username := u; LoginRequest.password := p2 |}
        db1).1
     = Return {| LoginResponse.status := "error";
                 LoginResponse.message := "Incorrect Password";
                 LoginResponse.workspaces := None |}).
Proof.
  intros Hid Hfresh db1. subst db1.
  set (first := {| SignupRequest.username := u; SignupRequest.password := p1;
                   SignupRequest.name := name1;
                   SignupRequest.email := email1 |}).
  rewrite (signup_absent first db Hid Hfresh). simpl.
  assert (<[u := user_data first]> db !! u = Some (user_data first)) as Hdoc
    by (apply lookup_put_eq; [done|apply user_data_storable]).
  assert (user_data first !! "password" = Some (VStr p1)) as Hpw
    by (unfold user_data; by simplify_map_eq).
  split; [|split].
  - apply signup_present. simpl. by eexists.
  - rewrite (login_account
               {| LoginRequest.username := u; LoginRequest.password := p1 |}
               _ (user_data first) ∅); [done|done|done|].
    unfold holds_workspaces, user_data. rewrite fmap_empty.
    by simplify_map_eq.
  - intros Hne.
    rewrite (login_wrong_password
               {| LoginRequest.username := u; LoginRequest.password := p2 |}
               _ (user_data first)); [done|done|].
    simpl. rewrite Hpw. congruence.
Qed.

(** *** Documents off the data model *)

(** X8: a document without a [workspaces] field is served as an account
    with no workspaces: list returns the empty map, a delete answers 404
    for the workspace and writes nothing, and after an upsert of [W] with
    state [S] list returns the map with that single entry, for a name [W]
    that is not empty and a state [S] that the Firestore client accepts to
    write. *)
Theorem missing_workspaces_field (db : Firestore) (u : string)
    (doc : document) (W : string) (S : state) :
  db !! u = Some doc →
  doc !! "workspaces" = None →
  W ≠ "" →
  storable (VDict S) = true →
  (get_all_workspaces {| GetWorkspacesRequest.username := u |} db).1
  = Return {| GetWorkspacesResponse.status := "success";
              GetWorkspacesResponse.workspaces := ∅ |}
  ∧ delete_workspace {| DeleteWorkspaceRequest.username := u;
                        DeleteWorkspaceRequest.workspace_name := W |} db
    = (Raise (HTTPException 404 ("Workspace '" ++ W ++ "' not found")), db)
  ∧ (get_all_workspaces {| GetWorkspacesRequest.username := u |}
       (create_update_workspace
          {| CreateWorkspaceRequest.username := u;
             CreateWorkspaceRequest.workspace_name := W;
             CreateWorkspaceRequest.state := S |} db).2).1
    = Return {| GetWorkspacesResponse.status := "success";
                GetWorkspacesResponse.workspaces := {[ W := S ]} |}.
Proof.
  intros Hdoc Hfield HW HS.
  assert (default (VDict ∅) (doc !! "workspaces") = VDict ∅) as Hdef
    by (by rewrite Hfield).
  assert (holds_workspaces doc ∅) as Hws
    by (unfold holds_workspaces; by rewrite fmap_empty).
  split; [|split].
  - by rewrite (get_all_workspaces_account
                  {| GetWorkspacesRequest.username := u |} db doc ∅).
  - by apply (delete_workspace_missing
                {| DeleteWorkspaceRequest.username := u;
                   DeleteWorkspaceRequest.workspace_name := W |} db doc ∅).
  - rewrite (create_update_workspace_dict
               {| CreateWorkspaceRequest.username := u;
                  CreateWorkspaceRequest.workspace_name := W;
                  CreateWorkspaceRequest.state := S |} db doc ∅
               Hdoc Hdef HW HS).
    simpl.
    assert (<[W := VDict S]> (∅ : gmap string value)
            = VDict <$> ({[ W := S ]} : gmap string (gmap string value)))
      as Heq by (by rewrite map_fmap_singleton).
    rewrite Heq.
    rewrite (get_all_workspaces_account
               {| GetWorkspacesRequest.username := u |} _
               (<["workspaces" := VDict (VDict <$> {[ W := S ]})]> doc)
               {[ W := S ]}); [done| |apply holds_workspaces_insert].
    simpl. rewrite (lookup_replace_workspaces _ _ _ _ _ Hdoc).
    + by rewrite decide_True.
    + rewrite <- Heq. apply storable_insert; [done|done|apply storable_empty].
Qed.

(** X9: a document whose [workspaces] field is null: login with the
    stored password answers success with no workspace map (the response
    model allows [None]), while list, upsert and delete answer 500, and
    neither write changes the store. *)
Theorem null_workspaces_field (db : Firestore) (u p : string)
    (doc : document) (W : string) (S : state) :
  db !! u = Some doc →
  doc !! "workspaces" = Some VNull →
  doc !! "password" = Some (VStr p) →
  (login {| LoginRequest.username := u; LoginRequest.password := p |} db).1
  = Return {| LoginResponse.status := "success";
              LoginResponse.message := "Successful";
              LoginResponse.workspaces := None |}
  ∧ http_status
      (get_all_workspaces {| GetWorkspacesRequest.username := u |} db).1
    = 500%Z
  ∧ (let written :=
       create_update_workspace
         {| CreateWorkspaceRequest.username := u;
            CreateWorkspaceRequest.workspace_name := W;
            CreateWorkspaceRequest.state := S |} db in
     http_status written.1 = 500%Z ∧ written.2 = db)
  ∧ (let deleted :=
       delete_workspace
         {| DeleteWorkspaceRequest.username := u;
            DeleteWorkspaceRequest.workspace_name := W |} db in
     http_status deleted.1 = 500%Z ∧ deleted.2 = db).
Proof.
  intros Hdoc Hfield Hpw. destruct (lookup_wf _ _ _ Hdoc) as [Hid _].
  repeat split.
  - unfold_handler. rewrite Hid; simpl. rewrite Hdoc; simpl.
    rewrite Hpw, ne_str_false; simpl. by rewrite Hfield.
  - unfold_handler. rewrite Hid; simpl. rewrite Hdoc; simpl. by rewrite Hfield.
  - unfold_handler. rewrite Hid; simpl. rewrite Hdoc; simpl. by rewrite Hfield.
  - unfold_handler. rewrite Hid; simpl. rewrite Hdoc; simpl. by rewrite Hfield.
  - unfold_handler. rewrite Hid; simpl. rewrite Hdoc; simpl. by rewrite Hfield.
  - unfold_handler. rewrite Hid; simpl. rewrite Hdoc; simpl. by rewrite Hfield.
Qed.

(** *** How workspace writes compose *)

Lemma as_dict_Some v d : as_dict v = Some d → v = VDict d.
Proof. destruct v; simpl; congruence. Qed.

Lemma lookup_unaddressable (db : Firestore) id :
  addressable id = false → db !! id = None.
Proof.
  intros Hid. destruct (db !! id) as [doc|] eqn:Hdoc; [|done].
  destruct (lookup_wf _ _ _ Hdoc). congruence.
Qed.

(** The store after an upsert, as a function of the store before. *)
Lemma create_update_workspace_store request db :
  (create_update_workspace request db).2
  = match db !! CreateWorkspaceRequest.username request with
    | Some doc =>
        match as_dict (default (VDict ∅) (doc !! "workspaces")) with
        | Some d =>
            if decide (CreateWorkspaceRequest.workspace_name request ≠ ""
                       ∧ storable (VDict (CreateWorkspaceRequest.state request))
                         = true)
            then
              <[CreateWorkspaceRequest.username request :=
                  <["workspaces" :=
                      VDict (<[CreateWorkspaceRequest.workspace_name request :=
                                 VDict (CreateWorkspaceRequest.state request)]>
                               d)]> doc]> db
            else db
        | None => db
        end
    | None => db
    end.
Proof.
  destruct (db !! CreateWorkspaceRequest.username request) as [doc|] eqn:Hdoc.
  - destruct (as_dict _) as [d|] eqn:Hd.
    + pose proof (as_dict_Some _ _ Hd) as Hws.
      case_decide as Hok.
      * destruct Hok as [HW HS].
        by rewrite (create_update_workspace_dict _ _ _ _ Hdoc Hws HW HS).
      * by rewrite (create_update_workspace_unstorable _ _ _ _ Hdoc Hws Hok).
    + by rewrite (create_update_workspace_not_dict _ _ _ Hdoc Hd).
  - destruct (addressable (CreateWorkspaceRequest.username request)) eqn:Hid.
    + by rewrite create_update_workspace_absent.
    + by rewrite create_update_workspace_refused.
Qed.

(** X10: an upsert is idempotent on every store: sending the same upsert
    a second time gives the same answer and leaves the store as the first
    one left it. *)
Theorem upsert_idempotent (request : CreateWorkspaceRequest.t)
    (db : Firestore) :
  create_update_workspace request (create_update_workspace request db).2
  = create_update_workspace request db.
Proof.
  destruct (create_update_workspace_cases request db)
    as [[e He] | (doc & d & Hdoc & Hws & Hs & body & Hok & _)].
  - by rewrite He.
  - destruct (storable_insert_inv _ _ _ Hs) as [HW HS].
    rewrite (create_update_workspace_dict request db doc d Hdoc Hws HW HS).
    simpl.
    rewrite (create_update_workspace_dict request _
               (<["workspaces" :=
                    VDict (<[CreateWorkspaceRequest.workspace_name request :=
                               VDict (CreateWorkspaceRequest.state request)]>
                             d)]> doc)
               (<[CreateWorkspaceRequest.workspace_name request :=
                    VDict (CreateWorkspaceRequest.state request)]> d)).
    + f_equal. rewrite !insert_insert_eq.
      destruct (lookup_wf _ _ _ Hdoc) as [Hid _].
      apply put_put; [done| |]; by eapply replace_workspaces_storable.
    + rewrite (lookup_replace_workspaces _ _ _ _ _ Hdoc Hs).
      by rewrite decide_True.
    + by rewrite lookup_insert_eq.
    + done.
    + done.
Qed.

(** X11: a workspace can be deleted once: when a delete has been answered
    with a body, the same delete sent again is answered 404 for the
    workspace and leaves the store as the first one left it. *)
Theorem delete_twice (request : DeleteWorkspaceRequest.t) (db db' : Firestore)
    (body : DeleteWorkspaceResponse.t) :
  delete_workspace request db = (Return body, db') →
  delete_workspace request db'
  = (Raise (HTTPException 404
              ("Workspace '"
               ++ DeleteWorkspaceRequest.workspace_name request
               ++ "' not found")), db').
Proof.
  intros Hrun.
  destruct (delete_workspace_cases request db)
    as [[e He] | (doc & d & Hdoc & Hws & _ & Hs & body' & Hok & _)];
    [congruence|].
  rewrite Hok in Hrun. injection Hrun as _ <-.
  eapply delete_workspace_missing.
  - rewrite (lookup_replace_workspaces _ _ _ _ _ Hdoc Hs).
    by rewrite decide_True.
  - by rewrite lookup_insert_eq.
  - apply lookup_delete_eq.
Qed.

(** X12: adding a new workspace and deleting it again restores the
    store: for a document whose [workspaces] field is a dict that does not
    bind [W], a name [W] that is not empty and a state [S] that the
    Firestore client accepts to write, an upsert of [W] followed by a
    delete of [W] is answered with success and ends in exactly the store
    it started from. *)
Theorem upsert_then_delete_restores (db : Firestore) (u : string)
    (doc : document) (d : gmap string value) (W : string) (S : state) :
  db !! u = Some doc →
  doc !! "workspaces" = Some (VDict d) →
  d !! W = None →
  W ≠ "" →
  storable (VDict S) = true →
  delete_workspace
    {| DeleteWorkspaceRequest.username := u;
       DeleteWorkspaceRequest.workspace_name := W |}
    (create_update_workspace
       {| CreateWorkspaceRequest.username := u;
          CreateWorkspaceRequest.workspace_name := W;
          CreateWorkspaceRequest.state := S |} db).2
  = (Return {| DeleteWorkspaceResponse.status := "success";
               DeleteWorkspaceResponse.message :=
                 "Workspace '" ++ W ++ "' deleted successfully" |}, db).
Proof.
  intros Hdoc Hfield Hfresh HW HS.
  assert (default (VDict ∅) (doc !! "workspaces") = VDict d) as Hws
    by (by rewrite Hfield).
  pose proof (stored_workspaces_storable _ _ _ _ Hdoc Hws) as Hd.
  destruct (lookup_wf _ _ _ Hdoc) as [Hid Hsdoc].
  assert (storable (VDict (<[W := VDict S]> d)) = true) as Hs1
    by by apply storable_insert.
  rewrite (create_update_workspace_dict
             {| CreateWorkspaceRequest.username := u;
                CreateWorkspaceRequest.workspace_name := W;
                CreateWorkspaceRequest.state := S |} db doc d Hdoc Hws HW HS).
  simpl.
  rewrite (delete_workspace_present
             {| DeleteWorkspaceRequest.username := u;
                DeleteWorkspaceRequest.workspace_name := W |} _
             (<["workspaces" := VDict (<[W := VDict S]> d)]> doc)
             (<[W := VDict S]> d)).
  - simpl. f_equal.
    rewrite delete_insert_eq, (delete_id d) by done.
    rewrite insert_insert_eq, (insert_id doc) by done.
    rewrite put_put; [by apply put_same|done|done|].
    by eapply replace_workspaces_storable.
  - simpl. rewrite (lookup_replace_workspaces _ _ _ _ _ Hdoc Hs1).
    by rewrite decide_True.
  - by rewrite lookup_insert_eq.
  - simpl. rewrite lookup_insert_eq. by eexists.
Qed.

(** X13: the status of an upsert is decided by the username, the user's
    document, the workspace name and the state: 404 exactly when the
    Firestore client accepts the username as a document id and it has no
    document; 200 exactly when it has a document whose [workspaces] field
    is a dict or is missing, the name is not empty and the client accepts
    to write the state; 500 in the remaining cases, that is when the
    client refuses the username, or there is a document and its
    [workspaces] field is not a dict, the name is empty or the client
    refuses the state. *)
Theorem upsert_status (request : CreateWorkspaceRequest.t) (db : Firestore) :
  let status := http_status (create_update_workspace request db).1 in
  let u := CreateWorkspaceRequest.username request in
  let W := CreateWorkspaceRequest.workspace_name request in
  let S := CreateWorkspaceRequest.state request in
  (status = 404%Z ↔ addressable u = true ∧ db !! u = None)
  ∧ (status = 200%Z
     ↔ ∃ doc d, db !! u = Some doc
                ∧ default (VDict ∅) (doc !! "workspaces") = VDict d
                ∧ W ≠ "" ∧ storable (VDict S) = true)
  ∧ (status = 500%Z
     ↔ addressable u = false
       ∨ ∃ doc, db !! u = Some doc
                ∧ (as_dict (default (VDict ∅) (doc !! "workspaces")) = None
                   ∨ W = ""
                   ∨ storable (VDict S) = false)).
Proof.
  intros status u W S. subst status u W S.
  destruct (addressable (CreateWorkspaceRequest.username request)) eqn:Hid.
  - destruct (db !! CreateWorkspaceRequest.username request)
      as [doc|] eqn:Hdoc.
    + destruct (as_dict (default (VDict ∅) (doc !! "workspaces")))
        as [d|] eqn:Hd.
      * pose proof (as_dict_Some _ _ Hd) as Hws.
        destruct (decide (CreateWorkspaceRequest.workspace_name request = ""))
          as [HW|HW];
          [|destruct (storable (VDict (CreateWorkspaceRequest.state request)))
              eqn:HS].
        -- rewrite (create_update_workspace_unstorable _ _ _ _ Hdoc Hws)
             by (by intros [? _]).
           simpl. split; [split; [done|by intros [_ ?]]|]. split.
           ++ split; [done|]. by intros (? & ? & _ & _ & ? & _).
           ++ split; [|done]. intros _. right. exists doc. eauto.
        -- rewrite (create_update_workspace_dict _ _ _ _ Hdoc Hws HW HS).
           simpl. split; [split; [done|by intros [_ ?]]|]. split.
           ++ split; [|done]. intros _. by exists doc, d.
           ++ split; [done|].
              intros [?|(doc' & [= <-] & [?|[?|?]])]; congruence.
        -- rewrite (create_update_workspace_unstorable _ _ _ _ Hdoc Hws)
             by (intros [_ ?]; congruence).
           simpl. split; [split; [done|by intros [_ ?]]|]. split.
           ++ split; [done|]. by intros (? & ? & _ & _ & _ & ?).
           ++ split; [|done]. intros _. right. exists doc. eauto.
      * rewrite (create_update_workspace_not_dict _ _ _ Hdoc Hd).
        simpl. split; [split; [done|by intros [_ ?]]|]. split.
        -- split; [done|]. intros (doc' & d & [= <-] & Hws & _).
           rewrite Hws in Hd. done.
        -- split; [|done]. intros _. right. exists doc. eauto.
    + rewrite create_update_workspace_absent by done.
      simpl. split; [done|]. split.
      * split; [done|]. by intros (? & ? & ? & _).
      * split; [done|]. by intros [?|(? & ? & _)].
  - rewrite create_update_workspace_refused by done.
    rewrite (lookup_unaddressable _ _ Hid).
    simpl. split; [split; [done|by intros [? _]]|]. split.
    + split; [done|]. by intros (? & ? & ? & _).
    + split; [|done]. intros _. by left.
Qed.

(** X14: upserts commute unless they write the same workspace of the
    same user: for two upserts that name different users or different
    workspaces, the store after both does not depend on their order. *)
Theorem upserts_commute (first second : CreateWorkspaceRequest.t)
    (db : Firestore) :
  CreateWorkspaceRequest.username first
    ≠ CreateWorkspaceRequest.username second
  ∨ CreateWorkspaceRequest.workspace_name first
      ≠ CreateWorkspaceRequest.workspace_name second →
  (create_update_workspace second (create_update_workspace first db).2).2
  = (create_update_workspace first (create_update_workspace second db).2).2.
Proof.
  destruct first as [u1 W1 S1], second as [u2 W2 S2]; simpl.
  intros Hdiff.
  rewrite (create_update_workspace_store _ db),
    (create_update_workspace_store _ db); simpl.
  destruct (decide (u1 = u2)) as [->|Hu].
  - destruct Hdiff as [?|HW]; [done|].
    destruct (db !! u2) as [doc|] eqn:Hdoc;
      [|by rewrite !create_update_workspace_store; simpl; rewrite Hdoc].
    destruct (as_dict (default (VDict ∅) (doc !! "workspaces")))
      as [d|] eqn:Hd;
      [|by rewrite !create_update_workspace_store; simpl; rewrite Hdoc, Hd].
    pose proof (stored_workspaces_storable _ _ _ _ Hdoc (as_dict_Some _ _ Hd))
      as Hstored.
    destruct (lookup_wf _ _ _ Hdoc) as [Hid _].
    rewrite !create_update_workspace_store; simpl.
    destruct (decide (W1 ≠ "" ∧ storable (VDict S1) = true)) as [[? ?]|H1];
      destruct (decide (W2 ≠ "" ∧ storable (VDict S2) = true)) as [[? ?]|H2].
    + rewrite !lookup_replace_workspaces by (done || by apply storable_insert).
      rewrite !decide_True by done. simpl.
      rewrite !lookup_insert_eq; simpl.
      rewrite !insert_insert_eq.
      rewrite (insert_insert_ne d W1 W2) by done.
      rewrite !put_put; first done; try done;
        eapply replace_workspaces_storable; try done;
        repeat apply storable_insert; done.
    + rewrite !lookup_replace_workspaces by (done || by apply storable_insert).
      rewrite !decide_True by done. simpl.
      rewrite !lookup_insert_eq; simpl. by rewrite Hdoc, Hd.
    + rewrite !lookup_replace_workspaces by (done || by apply storable_insert).
      rewrite !decide_True by done. simpl.
      rewrite !lookup_insert_eq; simpl. by rewrite Hdoc, Hd.
    + by rewrite Hdoc, Hd.
  - destruct (db !! u1) as [doc1|] eqn:Hdoc1;
      destruct (db !! u2) as [doc2|] eqn:Hdoc2;
      try destruct (as_dict (default (VDict ∅) (doc1 !! "workspaces")))
        as [d1|] eqn:Hd1;
      try destruct (as_dict (default (VDict ∅) (doc2 !! "workspaces")))
        as [d2|] eqn:Hd2;
      try destruct (decide (W1 ≠ "" ∧ storable (VDict S1) = true))
        as [Hok1|Hok1];
      try destruct (decide (W2 ≠ "" ∧ storable (VDict S2) = true))
        as [Hok2|Hok2];
      rewrite !create_update_workspace_store; simpl;
      repeat first
        [ rewrite lookup_put_ne by done
        | rewrite Hdoc1 | rewrite Hdoc2 | rewrite Hd1 | rewrite Hd2
        | rewrite decide_True by done | rewrite decide_False by done
        | progress simpl ];
      try done.
    destruct Hok1 as [? ?], Hok2 as [? ?].
    destruct (lookup_wf _ _ _ Hdoc1) as [Hid1 _].
    destruct (lookup_wf _ _ _ Hdoc2) as [Hid2 _].
    apply put_commute; try done.
    + eapply replace_workspaces_storable; [done|].
      apply storable_insert; [done|done|].
      apply (stored_workspaces_storable db u2 doc2 d2 Hdoc2
               (as_dict_Some _ _ Hd2)).
    + eapply replace_workspaces_storable; [done|].
      apply storable_insert; [done|done|].
      apply (stored_workspaces_storable db u1 doc1 d1 Hdoc1
               (as_dict_Some _ _ Hd1)).
Qed.

(** *** What a route can answer *)

Lemma validate_workspaces_raise v e :
  validate_workspaces v = Raise e → e = ValidationError v.
Proof.
  unfold validate_workspaces.
  destruct v; try by intros [= <-].
  case_bool_decide; [done|by intros [= <-]].
Qed.

Lemma validate_optional_workspaces_raise v e :
  validate_optional_workspaces v = Raise e → e = ValidationError v.
Proof.
  unfold validate_optional_workspaces.
  destruct v; try done;
    (destruct (validate_workspaces _) as [ws|e'] eqn:Hv; [done|];
     intros [= <-]; by apply validate_workspaces_raise).
Qed.

(** X15: a route never lets a raw exception out, and a 500 carries the
    text of the exception that caused it: when a request is not answered
    with a body it is answered with a 404, which only the three workspace
    routes give, or with a 500 whose detail is the route's own prefix
    followed by [str] of the cause, and the cause is the client's refusal
    of the username as a document id, a type error or a validation error
    on the [workspaces] field of the user's document, or the client's
    refusal of the map an upsert writes. *)
Theorem failures_are_404_or_500 (req : Request) (db : Firestore)
    (e : Exception) :
  (app req db).1 = Raise e →
  (∃ detail, e = HTTPException 404 detail)
  ∧ match req with
    | POST_workspace _ | POST_workspaces _ | DELETE_workspace _ => True
    | _ => False
    end
  ∨ ∃ cause id,
      e = HTTPException 500 (failure_prefix req ++ str cause)
      ∧ request_username req = Some id
      ∧ (addressable id = false
         ∧ cause = ValueError (VList (VStr <$> document_path id))
         ∨ ∃ doc,
             db !! id = Some doc
             ∧ (cause = TypeError (default (VDict ∅) (doc !! "workspaces"))
                ∨ cause
                  = ValidationError (default (VDict ∅) (doc !! "workspaces"))
                ∨ ∃ request d,
                    req = POST_workspace request
                    ∧ default (VDict ∅) (doc !! "workspaces") = VDict d
                    ∧ cause
                      = ValueError
                          (VDict
                             {[ "workspaces" :=
                                  VDict
                                    (<[CreateWorkspaceRequest.workspace_name
                                         request :=
                                         VDict (CreateWorkspaceRequest.state
                                                  request)]> d) ]}))).
Proof.
  destruct req as [|r|r|r|r|r]; simpl; rewrite ?route_run; simpl.
  - done.
  - destruct (login r db).1 as [body|e'] eqn:Hrun; [done|].
    intros [= <-]. right. revert Hrun.
    destruct (addressable (LoginRequest.username r)) eqn:Hid.
    + unfold_handler. rewrite Hid; simpl.
      destruct (db !! LoginRequest.username r) as [doc|] eqn:Hdoc; simpl;
        [|done].
      destruct (ne_str _ _); simpl; [done|].
      destruct (validate_optional_workspaces _) as [ws|cause] eqn:Hv; simpl;
        [done|].
      intros [= <-]. eexists _, _. split; [done|]. split; [done|].
      right. exists doc. split; [done|]. right; left.
      by apply validate_optional_workspaces_raise.
    + rewrite login_refused by done. simpl. intros [= <-].
      eexists _, _. split; [done|]. split; [done|]. by left.
  - destruct (signup r db).1 as [body|e'] eqn:Hrun; [done|].
    intros [= <-]. right. revert Hrun.
    destruct (addressable (SignupRequest.username r)) eqn:Hid.
    + destruct (db !! SignupRequest.username r) as [doc|] eqn:Hdoc.
      * by rewrite signup_present by eauto.
      * by rewrite signup_absent.
    + rewrite signup_refused by done. simpl. intros [= <-].
      eexists _, _. split; [done|]. split; [done|]. by left.
  - destruct (create_update_workspace r db).1 as [body|e'] eqn:Hrun; [done|].
    intros [= <-]. revert Hrun.
    destruct (addressable (CreateWorkspaceRequest.username r)) eqn:Hid.
    + destruct (db !! CreateWorkspaceRequest.username r) as [doc|] eqn:Hdoc.
      * destruct (as_dict (default (VDict ∅) (doc !! "workspaces")))
          as [d|] eqn:Hd.
        -- pose proof (as_dict_Some _ _ Hd) as Hws.
           destruct (decide (CreateWorkspaceRequest.workspace_name r ≠ ""
                             ∧ storable (VDict (CreateWorkspaceRequest.state r))
                               = true)) as [[HW HS]|Hbad].
           ++ by rewrite (create_update_workspace_dict _ _ _ _ Hdoc Hws HW HS).
           ++ rewrite (create_update_workspace_unstorable _ _ _ _ Hdoc Hws Hbad).
              simpl. intros [= <-]. right.
              eexists _, _. split; [done|]. split; [done|].
              right. exists doc. split; [done|]. right; right.
              by exists r, d.
        -- rewrite (create_update_workspace_not_dict _ _ _ Hdoc Hd).
           simpl. intros [= <-]. right.
           eexists _, _. split; [done|]. split; [done|].
           right. exists doc. split; [done|]. by left.
      * rewrite create_update_workspace_absent by done. simpl.
        intros [= <-]. left. split; [by eexists|done].
    + rewrite create_update_workspace_refused by done. simpl. intros [= <-].
      right. eexists _, _. split; [done|]. split; [done|]. by left.
  - destruct (get_all_workspaces r db).1 as [body|e'] eqn:Hrun; [done|].
    intros [= <-]. revert Hrun.
    destruct (addressable (GetWorkspacesRequest.username r)) eqn:Hid.
    + unfold_handler. rewrite Hid; simpl.
      destruct (db !! GetWorkspacesRequest.username r) as [doc|] eqn:Hdoc;
        simpl; [|intros [= <-]; left; split; [by eexists|done]].
      destruct (validate_workspaces _) as [ws|cause] eqn:Hv; simpl; [done|].
      rewrite (validate_workspaces_raise _ _ Hv). simpl.
      intros [= <-]. right.
      eexists _, _. split; [done|]. split; [done|].
      right. exists doc. split; [done|]. by right; left.
    + rewrite get_all_workspaces_refused by done. simpl. intros [= <-].
      right. eexists _, _. split; [done|]. split; [done|]. by left.
  - destruct (delete_workspace r db).1 as [body|e'] eqn:Hrun; [done|].
    intros [= <-]. revert Hrun.
    destruct (addressable (DeleteWorkspaceRequest.username r)) eqn:Hid.
    + destruct (db !! DeleteWorkspaceRequest.username r) as [doc|] eqn:Hdoc;
        [|rewrite delete_workspace_absent by done; simpl;
          intros [= <-]; left; split; [by eexists|done]].
      unfold_handler. rewrite Hid; simpl. rewrite Hdoc; simpl.
      destruct (default (VDict ∅) (doc !! "workspaces"))
        as [| | | |s|l|d] eqn:Hws; simpl.
      1-4: intros [= <-]; right; eexists _, _; (split; [done|]);
        (split; [done|]); right; exists doc; (split; [done|]); left;
        by rewrite Hws.
      * destruct (bool_decide _); simpl.
        -- intros [= <-]. right. eexists _, _. split; [done|]. split; [done|].
           right. exists doc. split; [done|]. left. by rewrite Hws.
        -- intros [= <-]. left. split; [by eexists|done].
      * destruct (existsb _ l); simpl.
        -- intros [= <-]. right. eexists _, _. split; [done|]. split; [done|].
           right. exists doc. split; [done|]. left. by rewrite Hws.
        -- intros [= <-]. left. split; [by eexists|done].
      * case_bool_decide as Hkey; simpl;
          [|intros [= <-]; left; split; [by eexists|done]].
        destruct Hkey as [x Hx]. rewrite Hx; simpl.
        rewrite storable_field, storable_delete;
          [|by eapply stored_workspaces_storable|done].
        simpl. by rewrite Hdoc.
    + rewrite delete_workspace_refused by done. simpl. intros [= <-].
      right. eexists _, _. split; [done|]. split; [done|]. by left.
Qed.

(** X16: on a store that holds accounts only, a request whose arguments
    the Firestore client accepts (the username as a document id and, for
    an upsert, a name that is not empty and a state it can write) is never
    answered 500: the answer is a body or a 404.  (The server behind the
    client is taken to be available, as everywhere in this model.) *)
Theorem accounts_never_answer_500 (req : Request) (db : Firestore) :
  accounts_only db →
  client_accepts req →
  (∃ body, (app req db).1 = Return body)
  ∨ ∃ detail, (app req db).1 = Raise (HTTPException 404 detail).
Proof.
  intros Hok Hreq.
  destruct req as [|r|r|r|r|r]; simpl in *; rewrite ?route_run; simpl.
  - left. by eexists.
  - left. destruct (db !! LoginRequest.username r) as [doc|] eqn:Hdoc.
    + destruct (account_workspaces _ _ (Hok _ _ Hdoc)) as [ws Hws].
      destruct (account_password _ _ (Hok _ _ Hdoc)) as [p0 Hp0].
      destruct (decide (p0 = LoginRequest.password r)) as [->|Hpw].
      * rewrite (login_account r db doc ws Hdoc Hp0 Hws). by eexists.
      * rewrite (login_wrong_password r db doc Hdoc) by congruence.
        by eexists.
    + rewrite (login_absent r db Hreq Hdoc). by eexists.
  - left.
    destruct (signup_cases r db) as [[e He] | [-> | (_ & _ & ->)]];
      [|by eexists|by eexists].
    destruct (db !! SignupRequest.username r) as [doc|] eqn:Hdoc.
    + rewrite signup_present in He by eauto. done.
    + rewrite signup_absent in He by done. done.
  - destruct Hreq as (Hid & HW & HS).
    destruct (db !! CreateWorkspaceRequest.username r) as [doc|] eqn:Hdoc.
    + left. destruct (account_workspaces _ _ (Hok _ _ Hdoc)) as [ws Hws].
      rewrite (create_update_workspace_dict r db doc _ Hdoc Hws HW HS).
      by eexists.
    + right. rewrite (create_update_workspace_absent r db Hid Hdoc).
      by eexists.
  - destruct (db !! GetWorkspacesRequest.username r) as [doc|] eqn:Hdoc.
    + left. destruct (account_workspaces _ _ (Hok _ _ Hdoc)) as [ws Hws].
      rewrite (get_all_workspaces_account r db doc ws Hdoc Hws). by eexists.
    + right. rewrite (get_all_workspaces_absent r db Hreq Hdoc). by eexists.
  - destruct (db !! DeleteWorkspaceRequest.username r) as [doc|] eqn:Hdoc.
    + destruct (account_workspaces _ _ (Hok _ _ Hdoc)) as [ws Hws].
      destruct ((VDict <$> ws) !! DeleteWorkspaceRequest.workspace_name r)
        as [x|] eqn:Hkey.
      * left.
        rewrite (delete_workspace_present r db doc _ Hdoc Hws) by eauto.
        by eexists.
      * right.
        rewrite (delete_workspace_missing r db doc _ Hdoc Hws Hkey).
        by eexists.
    + right. rewrite (delete_workspace_absent r db Hreq Hdoc). by eexists.
Qed.

(** *** What the client refuses *)

(** X17: a username that the Firestore client refuses as a document id
    (one that does not give a path with an even number of elements) is
    answered 500 by every route that takes a username, with the route's
    prefix followed by the text of the client's [ValueError], and the
    store is left as it was. *)
Theorem refused_username (req : Request) (db : Firestore) (id : string) :
  request_username req = Some id →
  addressable id = false →
  app req db
  = (Raise (HTTPException 500
              (failure_prefix req
               ++ str (ValueError (VList (VStr <$> document_path id))))),
     db).
Proof.
  intros Hreq Hid.
  destruct req as [|r|r|r|r|r]; simpl in *; try done;
    injection Hreq as <-; rewrite route_run.
  - by rewrite login_refused.
  - by rewrite signup_refused.
  - by rewrite create_update_workspace_refused.
  - by rewrite get_all_workspaces_refused.
  - by rewrite delete_workspace_refused.
Qed.

(** X18: an upsert that the Firestore client refuses to write, because
    the workspace name is empty or the state has an empty key in a nested
    dict or an integer outside 64 bits, is answered 500 for an existing
    user whose [workspaces] field is a dict, and the store is left as it
    was. *)
Theorem refused_upsert (db : Firestore) (u : string) (doc : document)
    (d : gmap string value) (W : string) (S : state) :
  db !! u = Some doc →
  default (VDict ∅) (doc !! "workspaces") = VDict d →
  W = "" ∨ storable (VDict S) = false →
  create_update_workspace
    {| CreateWorkspaceRequest.username := u;
       CreateWorkspaceRequest.workspace_name := W;
       CreateWorkspaceRequest.state := S |} db
  = (Raise (HTTPException 500
              ("Error creating workspace: "
               ++ str (ValueError
                         (VDict
                            {[ "workspaces" :=
                                 VDict (<[W := VDict S]> d) ]})))),
     db).
Proof.
  intros Hdoc Hws Hbad.
  apply (create_update_workspace_unstorable
           {| CreateWorkspaceRequest.username := u;
              CreateWorkspaceRequest.workspace_name := W;
              CreateWorkspaceRequest.state := S |} db doc d Hdoc Hws).
  simpl. intros [HW HS]. destruct Hbad; congruence.
Qed.

End Handlers.

(** ** The example scenario of section 8, run on the model *)

Example scenario_signup :
  signup exception_text
    {| SignupRequest.username := "alice"; SignupRequest.password := "pw1";
       SignupRequest.name := "Alice"; SignupRequest.email := "a@x.com" |} ∅
  = (Return {| SignupResponse.status := "success";
               SignupResponse.message := "Account created successfully" |},
     {[ "alice" := <["workspaces" := VDict ∅]> alice ]}).
Proof. reflexivity. Qed.

Example scenario_login :
  (login exception_text
     {| LoginRequest.username := "alice"; LoginRequest.password := "pw1" |}
     {[ "alice" := <["workspaces" := VDict ∅]> alice ]}).1
  = Return {| LoginResponse.status := "success";
              LoginResponse.message := "Successful";
              LoginResponse.workspaces := Some ∅ |}.
Proof. reflexivity. Qed.

Example scenario_upsert :
  create_update_workspace exception_text
    {| CreateWorkspaceRequest.username := "alice";
       CreateWorkspaceRequest.workspace_name := "proj1";
       CreateWorkspaceRequest.state := proj1_state |}
    {[ "alice" := <["workspaces" := VDict ∅]> alice ]}
  = (Return {| CreateWorkspaceResponse.status := "success";
               CreateWorkspaceResponse.message :=
                 "Workspace 'proj1' created/updated successfully" |},
     sample_store).
Proof. reflexivity. Qed.

Example scenario_list :
  (get_all_workspaces exception_text
     {| GetWorkspacesRequest.username := "alice" |} sample_store).1
  = Return {| GetWorkspacesResponse.status := "success";
              GetWorkspacesResponse.workspaces := alice_workspaces |}.
Proof. reflexivity. Qed.

Example scenario_delete :
  delete_workspace exception_text
    {| DeleteWorkspaceRequest.username := "alice";
       DeleteWorkspaceRequest.workspace_name := "proj1" |} sample_store
  = (Return {| DeleteWorkspaceResponse.status := "success";
               DeleteWorkspaceResponse.message :=
                 "Workspace 'proj1' deleted successfully" |},
     {[ "alice" := <["workspaces" := VDict ∅]> alice ]}).
Proof. reflexivity. Qed.

Example scenario_list_after_delete :
  (get_all_workspaces exception_text
     {| GetWorkspacesRequest.username := "alice" |}
     {[ "alice" := <["workspaces" := VDict ∅]> alice ]}).1
  = Return {| GetWorkspacesResponse.status := "success";
              GetWorkspacesResponse.workspaces := ∅ |}.
Proof. reflexivity. Qed.

(** A document that is not an account: the workspace handlers answer 500
    (or 404 when the name is not a substring of the stored text) and
    write nothing. *)

Example stray_upsert :
  create_update_workspace exception_text
    {| CreateWorkspaceRequest.username := "eve";
       CreateWorkspaceRequest.workspace_name := "b";
       CreateWorkspaceRequest.state := ∅ |} {[ "eve" := stray ]}
  = (Raise (HTTPException 500 "Error creating workspace: TypeError"),
     {[ "eve" := stray ]}).
Proof. reflexivity. Qed.

Example stray_delete_substring :
  delete_workspace exception_text
    {| DeleteWorkspaceRequest.username := "eve";
       DeleteWorkspaceRequest.workspace_name := "b" |} {[ "eve" := stray ]}
  = (Raise (HTTPException 500 "Error deleting workspace: TypeError"),
     {[ "eve" := stray ]}).
Proof. reflexivity. Qed.

Example stray_delete_other :
  delete_workspace exception_text
    {| DeleteWorkspaceRequest.username := "eve";
       DeleteWorkspaceRequest.workspace_name := "z" |} {[ "eve" := stray ]}
  = (Raise (HTTPException 404 "Workspace 'z' not found"),
     {[ "eve" := stray ]}).
Proof. reflexivity. Qed.

Example stray_list :
  get_all_workspaces exception_text
    {| GetWorkspacesRequest.username := "eve" |} {[ "eve" := stray ]}
  = (Raise (HTTPException 500 "Error getting workspaces: ValidationError"),
     {[ "eve" := stray ]}).
Proof. reflexivity. Qed.

(** ** The properties on the sample store *)

Lemma signup_then_login_witness :
  addressable "bob" = true
  ∧ sample_store !! "bob" = None
  ∧ (login exception_text
       {| LoginRequest.username := "bob"; LoginRequest.password := "pw2" |}
       (signup exception_text
          {| SignupRequest.username := "bob";
             SignupRequest.password := "pw2";
             SignupRequest.name := "Bob";
             SignupRequest.email := "b@x.com" |} sample_store).2).1
    = Return {| LoginResponse.status := "success";
                LoginResponse.message := "Successful";
                LoginResponse.workspaces := Some ∅ |}.
Proof.
  split; [reflexivity|]. split; [reflexivity|].
  apply (signup_then_login exception_text sample_store
           "bob" "pw2" "Bob" "b@x.com"); reflexivity.
Defined.

Lemma upsert_then_list_witness :
  sample_store !! "alice" = Some alice
  ∧ holds_workspaces alice alice_workspaces
  ∧ "proj1" ≠ ""
  ∧ storable (VDict {[ "y" := VInt 2 ]}) = true
  ∧ storable (VDict {[ "z" := VBool true ]}) = true
  ∧ ∃ listed,
      (get_all_workspaces exception_text
         {| GetWorkspacesRequest.username := "alice" |}
         (create_update_workspace exception_text
            {| CreateWorkspaceRequest.username := "alice";
               CreateWorkspaceRequest.workspace_name := "proj1";
               CreateWorkspaceRequest.state := {[ "z" := VBool true ]} |}
            (create_update_workspace exception_text
               {| CreateWorkspaceRequest.username := "alice";
                  CreateWorkspaceRequest.workspace_name := "proj1";
                  CreateWorkspaceRequest.state := {[ "y" := VInt 2 ]} |}
               sample_store).2).2).1
      = Return {| GetWorkspacesResponse.status := "success";
                  GetWorkspacesResponse.workspaces := listed |}
      ∧ listed !! "proj1" = Some {[ "z" := VBool true ]}.
Proof.
  assert ("proj1" ≠ "") as Hname by (intros H; discriminate H).
  split; [reflexivity|]. split; [reflexivity|]. split; [exact Hname|].
  split; [reflexivity|]. split; [reflexivity|].
  pose proof (upsert_then_list exception_text sample_store "alice" alice
                alice_workspaces "proj1"
                {[ "y" := VInt 2 ]} {[ "z" := VBool true ]}
                eq_refl eq_refl Hname eq_refl eq_refl) as H.
  cbv zeta in H.
  destruct H as (_ & _ & _ & listed & Hlist & Hentry & _).
  exists listed. split; assumption.
Defined.

Lemma signup_existing_witness :
  sample_store !! "alice" = Some alice
  ∧ (signup exception_text
       {| SignupRequest.username := "alice";
          SignupRequest.password := "other";
          SignupRequest.name := "Mallory";
          SignupRequest.email := "m@x.com" |} sample_store).2
    = sample_store.
Proof.
  split; [reflexivity|].
  apply (signup_existing exception_text sample_store
           "alice" "other" "Mallory" "m@x.com" alice).
  reflexivity.
Defined.

Lemma login_failures_witness :
  (addressable "bob" = true
   ∧ sample_store !! "bob" = None
   ∧ (login exception_text
        {| LoginRequest.username := "bob"; LoginRequest.password := "pw1" |}
        sample_store).1
     = Return {| LoginResponse.status := "error";
                 LoginResponse.message := "Username not found";
                 LoginResponse.workspaces := None |})
  ∧ (sample_store !! "alice" = Some alice
     ∧ alice !! "password" ≠ Some (VStr "pw2")
     ∧ (login exception_text
          {| LoginRequest.username := "alice";
             LoginRequest.password := "pw2" |}
          sample_store).1
       = Return {| LoginResponse.status := "error";
                   LoginResponse.message := "Incorrect Password";
                   LoginResponse.workspaces := None |}).
Proof.
  assert (alice !! "password" ≠ Some (VStr "pw2")) as Hpw
    by (intros H; discriminate H).
  split.
  - split; [reflexivity|]. split; [reflexivity|].
    apply (login_failures exception_text sample_store "bob" "pw1");
      reflexivity.
  - split; [reflexivity|]. split; [exact Hpw|].
    apply (proj2 (login_failures exception_text sample_store "alice" "pw2")
             alice eq_refl Hpw).
Defined.

Lemma delete_workspace_outcomes_witness :
  sample_store !! "alice" = Some alice
  ∧ holds_workspaces alice alice_workspaces
  ∧ (alice_workspaces !! "proj2" = None
     ∧ http_status
         (delete_workspace exception_text
            {| DeleteWorkspaceRequest.username := "alice";
               DeleteWorkspaceRequest.workspace_name := "proj2" |}
            sample_store).1 = 404%Z)
  ∧ (is_Some (alice_workspaces !! "proj1")
     ∧ ∃ listed,
         (get_all_workspaces exception_text
            {| GetWorkspacesRequest.username := "alice" |}
            (delete_workspace exception_text
               {| DeleteWorkspaceRequest.username := "alice";
                  DeleteWorkspaceRequest.workspace_name := "proj1" |}
               sample_store).2).1
         = Return {| GetWorkspacesResponse.status := "success";
                     GetWorkspacesResponse.workspaces := listed |}
         ∧ listed !! "proj1" = None).
Proof.
  assert (is_Some (alice_workspaces !! "proj1")) as Hin
    by (exists proj1_state; reflexivity).
  split; [reflexivity|]. split; [reflexivity|]. split.
  - split; [reflexivity|].
    apply (proj1 (delete_workspace_outcomes exception_text sample_store
                    "alice" alice alice_workspaces "proj2" eq_refl eq_refl)
             eq_refl).
  - split; [exact Hin|].
    apply (proj2 (delete_workspace_outcomes exception_text sample_store
                    "alice" alice alice_workspaces "proj1" eq_refl eq_refl)
             Hin).
Defined.

Lemma unknown_username_witness :
  addressable "bob" = true
  ∧ sample_store !! "bob" = None
  ∧ http_status
      (get_all_workspaces exception_text
         {| GetWorkspacesRequest.username := "bob" |} sample_store).1
    = 404%Z.
Proof.
  split; [reflexivity|]. split; [reflexivity|].
  apply (unknown_username exception_text sample_store "bob" eq_refl eq_refl
           "proj1" "pw" proj1_state).
Defined.

Lemma workspace_writes_touch_workspaces_only_witness :
  sample_store !! "alice" = Some alice
  ∧ is_Some
      (serve exception_text
         [DELETE_workspace
            {| DeleteWorkspaceRequest.username := "alice";
               DeleteWorkspaceRequest.workspace_name := "proj1" |};
          POST_signup
            {| SignupRequest.username := "alice";
               SignupRequest.password := "x";
               SignupRequest.name := "y";
               SignupRequest.email := "z" |}]
         sample_store !! "alice").
Proof.
  split; [reflexivity|].
  apply (workspace_writes_touch_workspaces_only exception_text sample_store
           "alice" alice eq_refl).
Defined.

Lemma other_workspaces_unchanged_witness :
  sample_store !! "alice" = Some alice
  ∧ holds_workspaces alice alice_workspaces
  ∧ ∃ doc' ws',
      (delete_workspace exception_text
         {| DeleteWorkspaceRequest.username := "alice";
            DeleteWorkspaceRequest.workspace_name := "proj2" |}
         sample_store).2 !! "alice" = Some doc'
      ∧ holds_workspaces doc' ws'
      ∧ ws' !! "proj2" = None
      ∧ ∀ W2, W2 ≠ "proj2" → ws' !! W2 = alice_workspaces !! W2.
Proof.
  split; [reflexivity|]. split; [reflexivity|].
  apply (other_workspaces_unchanged exception_text sample_store "alice"
           alice alice_workspaces "proj2" eq_refl eq_refl).
Defined.

Lemma error_answers_leave_store_witness :
  http_status
    (app exception_text
       (DELETE_workspace
          {| DeleteWorkspaceRequest.username := "alice";
             DeleteWorkspaceRequest.workspace_name := "proj2" |})
       sample_store).1 = 404%Z
  ∧ (app exception_text
       (DELETE_workspace
          {| DeleteWorkspaceRequest.username := "alice";
             DeleteWorkspaceRequest.workspace_name := "proj2" |})
       sample_store).2 = sample_store.
Proof.
  split; [reflexivity|].
  apply error_answers_leave_store. right. reflexivity.
Defined.

(** ** The further properties on sample stores *)

Lemma sample_store_accounts_only : accounts_only sample_store.
Proof.
  intros u doc. unfold sample_store, singletonM, Firestore_singleton.
  change (<["alice" := alice]> (∅ : Firestore) !! u = Some doc
          → is_account u doc).
  rewrite (lookup_put ∅ "alice" alice u eq_refl eq_refl).
  case_decide as Hu; [|done].
  subst u. intros [= <-].
  unfold alice. split.
  - by simplify_map_eq.
  - eexists. by simplify_map_eq.
  - eexists. by simplify_map_eq.
  - eexists. by simplify_map_eq.
  - exists alice_workspaces. unfold holds_workspaces. by simplify_map_eq.
Qed.

Lemma other_users_untouched_witness :
  request_username
    (POST_workspace
       {| CreateWorkspaceRequest.username := "alice";
          CreateWorkspaceRequest.workspace_name := "proj2";
          CreateWorkspaceRequest.state := proj1_state |}) ≠ Some "eve"
  ∧ (app exception_text
       (POST_workspace
          {| CreateWorkspaceRequest.username := "alice";
             CreateWorkspaceRequest.workspace_name := "proj2";
             CreateWorkspaceRequest.state := proj1_state |})
       (<["eve" := stray]> sample_store)).2 !! "eve"
    = <["eve" := stray]> sample_store !! "eve".
Proof.
  assert (Some "alice" ≠ Some "eve") as Hne by (intros H; discriminate H).
  split; [exact Hne|].
  apply other_users_untouched. exact Hne.
Defined.

Lemma credentials_never_change_witness :
  sample_store !! "alice" = Some alice
  ∧ ∃ doc',
      serve exception_text
        [POST_signup
           {| SignupRequest.username := "alice";
              SignupRequest.password := "other";
              SignupRequest.name := "Mallory";
              SignupRequest.email := "m@x.com" |};
         POST_workspace
           {| CreateWorkspaceRequest.username := "alice";
              CreateWorkspaceRequest.workspace_name := "proj2";
              CreateWorkspaceRequest.state := proj1_state |}]
        sample_store !! "alice" = Some doc'
      ∧ ∀ field, field ≠ "workspaces" → doc' !! field = alice !! field.
Proof.
  split; [reflexivity|].
  apply credentials_never_change. reflexivity.
Defined.

Lemma serve_accounts_only_witness :
  accounts_only sample_store
  ∧ accounts_only
      (serve exception_text
         [DELETE_workspace
            {| DeleteWorkspaceRequest.username := "alice";
               DeleteWorkspaceRequest.workspace_name := "proj1" |}]
         sample_store).
Proof.
  split; [exact sample_store_accounts_only|].
  apply serve_accounts_only. exact sample_store_accounts_only.
Defined.

Lemma login_returns_listed_workspaces_witness :
  sample_store !! "alice" = Some alice
  ∧ alice !! "password" = Some (VStr "pw1")
  ∧ holds_workspaces alice alice_workspaces
  ∧ (login exception_text
       {| LoginRequest.username := "alice"; LoginRequest.password := "pw1" |}
       sample_store).1
    = Return {| LoginResponse.status := "success";
                LoginResponse.message := "Successful";
                LoginResponse.workspaces := Some alice_workspaces |}.
Proof.
  split; [reflexivity|]. split; [reflexivity|]. split; [reflexivity|].
  apply (login_returns_listed_workspaces exception_text sample_store
           "alice" "pw1" alice alice_workspaces eq_refl eq_refl eq_refl).
Defined.

Lemma login_discloses_only_on_match_witness :
  (login exception_text
     {| LoginRequest.username := "alice"; LoginRequest.password := "pw1" |}
     sample_store).1
  = Return {| LoginResponse.status := "success";
              LoginResponse.message := "Successful";
              LoginResponse.workspaces := Some alice_workspaces |}
  ∧ ∃ doc,
      sample_store !! "alice" = Some doc
      ∧ doc !! "password" = Some (VStr "pw1").
Proof.
  split; [reflexivity|].
  apply (login_discloses_only_on_match exception_text sample_store
           "alice" "pw1"
           {| LoginResponse.status := "success";
              LoginResponse.message := "Successful";
              LoginResponse.workspaces := Some alice_workspaces |} eq_refl).
  left. reflexivity.
Defined.

Lemma first_signup_wins_witness :
  addressable "bob" = true
  ∧ sample_store !! "bob" = None
  ∧ "pw3" ≠ "pw2"
  ∧ (login exception_text
       {| LoginRequest.username := "bob"; LoginRequest.password := "pw3" |}
       (signup exception_text
          {| SignupRequest.username := "bob";
             SignupRequest.password := "pw2";
             SignupRequest.name := "Bob";
             SignupRequest.email := "b@x.com" |} sample_store).2).1
    = Return {| LoginResponse.status := "error";
                LoginResponse.message := "Incorrect Password";
                LoginResponse.workspaces := None |}.
Proof.
  assert ("pw3" ≠ "pw2") as Hne by (intros H; discriminate H).
  split; [reflexivity|]. split; [reflexivity|]. split; [exact Hne|].
  apply (first_signup_wins exception_text sample_store
           "bob" "pw2" "Bob" "b@x.com" "pw3" "Robert" "r@x.com"
           eq_refl eq_refl).
  exact Hne.
Defined.

Lemma missing_workspaces_field_witness :
  foreign_store !! "carol" = Some bare
  ∧ bare !! "workspaces" = None
  ∧ "proj1" ≠ ""
  ∧ storable (VDict proj1_state) = true
  ∧ (get_all_workspaces exception_text
       {| GetWorkspacesRequest.username := "carol" |}
       (create_update_workspace exception_text
          {| CreateWorkspaceRequest.username := "carol";
             CreateWorkspaceRequest.workspace_name := "proj1";
             CreateWorkspaceRequest.state := proj1_state |}
          foreign_store).2).1
    = Return {| GetWorkspacesResponse.status := "success";
                GetWorkspacesResponse.workspaces :=
                  {[ "proj1" := proj1_state ]} |}.
Proof.
  assert ("proj1" ≠ "") as Hname by (intros H; discriminate H).
  split; [reflexivity|]. split; [reflexivity|]. split; [exact Hname|].
  split; [reflexivity|].
  apply (missing_workspaces_field exception_text foreign_store
           "carol" bare "proj1" proj1_state eq_refl eq_refl Hname eq_refl).
Defined.

Lemma null_workspaces_field_witness :
  foreign_store !! "dave" = Some nulled
  ∧ nulled !! "workspaces" = Some VNull
  ∧ nulled !! "password" = Some (VStr "pw")
  ∧ (login exception_text
       {| LoginRequest.username := "dave"; LoginRequest.password := "pw" |}
       foreign_store).1
    = Return {| LoginResponse.status := "success";
                LoginResponse.message := "Successful";
                LoginResponse.workspaces := None |}.
Proof.
  split; [reflexivity|]. split; [reflexivity|]. split; [reflexivity|].
  apply (null_workspaces_field exception_text foreign_store
           "dave" "pw" nulled "proj1" proj1_state eq_refl eq_refl eq_refl).
Defined.

Lemma delete_twice_witness :
  delete_workspace exception_text
    {| DeleteWorkspaceRequest.username := "alice";
       DeleteWorkspaceRequest.workspace_name := "proj1" |} sample_store
  = (Return {| DeleteWorkspaceResponse.status := "success";
               DeleteWorkspaceResponse.message :=
                 "Workspace 'proj1' deleted successfully" |},
     {[ "alice" := <["workspaces" := VDict ∅]> alice ]})
  ∧ delete_workspace exception_text
      {| DeleteWorkspaceRequest.username := "alice";
         DeleteWorkspaceRequest.workspace_name := "proj1" |}
      {[ "alice" := <["workspaces" := VDict ∅]> alice ]}
    = (Raise (HTTPException 404 "Workspace 'proj1' not found"),
       {[ "alice" := <["workspaces" := VDict ∅]> alice ]}).
Proof.
  split; [reflexivity|].
  apply (delete_twice exception_text
           {| DeleteWorkspaceRequest.username := "alice";
              DeleteWorkspaceRequest.workspace_name := "proj1" |}
           sample_store _
           {| DeleteWorkspaceResponse.status := "success";
              DeleteWorkspaceResponse.message :=
                "Workspace 'proj1' deleted successfully" |}).
  reflexivity.
Defined.

Lemma upsert_then_delete_restores_witness :
  sample_store !! "alice" = Some alice
  ∧ alice !! "workspaces" = Some (VDict (VDict <$> alice_workspaces))
  ∧ (VDict <$> alice_workspaces) !! "proj2" = None
  ∧ "proj2" ≠ ""
  ∧ storable (VDict proj1_state) = true
  ∧ (delete_workspace exception_text
       {| DeleteWorkspaceRequest.username := "alice";
          DeleteWorkspaceRequest.workspace_name := "proj2" |}
       (create_update_workspace exception_text
          {| CreateWorkspaceRequest.username := "alice";
             CreateWorkspaceRequest.workspace_name := "proj2";
             CreateWorkspaceRequest.state := proj1_state |}
          sample_store).2).2
    = sample_store.
Proof.
  assert ("proj2" ≠ "") as Hname by (intros H; discriminate H).
  split; [reflexivity|]. split; [reflexivity|]. split; [reflexivity|].
  split; [exact Hname|]. split; [reflexivity|].
  exact (f_equal snd
           (upsert_then_delete_restores exception_text sample_store "alice"
              alice (VDict <$> alice_workspaces) "proj2" proj1_state
              eq_refl eq_refl eq_refl Hname eq_refl)).
Defined.

Lemma upserts_commute_witness :
  ("alice" ≠ "alice" ∨ "proj2" ≠ "proj3")
  ∧ (create_update_workspace exception_text
       {| CreateWorkspaceRequest.username := "alice";
          CreateWorkspaceRequest.workspace_name := "proj3";
          CreateWorkspaceRequest.state := ∅ |}
       (create_update_workspace exception_text
          {| CreateWorkspaceRequest.username := "alice";
             CreateWorkspaceRequest.workspace_name := "proj2";
             CreateWorkspaceRequest.state := proj1_state |}
          sample_store).2).2
    = (create_update_workspace exception_text
         {| CreateWorkspaceRequest.username := "alice";
            CreateWorkspaceRequest.workspace_name := "proj2";
            CreateWorkspaceRequest.state := proj1_state |}
         (create_update_workspace exception_text
            {| CreateWorkspaceRequest.username := "alice";
               CreateWorkspaceRequest.workspace_name := "proj3";
               CreateWorkspaceRequest.state := ∅ |}
            sample_store).2).2.
Proof.
  assert ("alice" ≠ "alice" ∨ "proj2" ≠ "proj3") as Hdiff
    by (right; intros H; discriminate H).
  split; [exact Hdiff|].
  apply (upserts_commute exception_text
           {| CreateWorkspaceRequest.username := "alice";
              CreateWorkspaceRequest.workspace_name := "proj2";
              CreateWorkspaceRequest.state := proj1_state |}
           {| CreateWorkspaceRequest.username := "alice";
              CreateWorkspaceRequest.workspace_name := "proj3";
              CreateWorkspaceRequest.state := ∅ |}
           sample_store Hdiff).
Defined.

Lemma failures_are_404_or_500_witness :
  (app exception_text
     (POST_login
        {| LoginRequest.username := "a/b"; LoginRequest.password := "pw1" |})
     sample_store).1
  = Raise (HTTPException 500 "Login failed: ValueError")
  ∧ ((∃ detail,
        HTTPException 500 "Login failed: ValueError"
        = HTTPException 404 detail) ∧ False
     ∨ ∃ cause id,
         HTTPException 500 "Login failed: ValueError"
         = HTTPException 500 ("Login failed: " ++ exception_text cause)
         ∧ Some "a/b" = Some id
         ∧ (addressable id = false
            ∧ cause = ValueError (VList (VStr <$> document_path id))
            ∨ ∃ doc,
                sample_store !! id = Some doc
                ∧ (cause = TypeError (default (VDict ∅) (doc !! "workspaces"))
                   ∨ cause
                     = ValidationError
                         (default (VDict ∅) (doc !! "workspaces"))
                   ∨ ∃ request d,
                       POST_login
                         {| LoginRequest.username := "a/b";
                            LoginRequest.password := "pw1" |}
                       = POST_workspace request
                       ∧ default (VDict ∅) (doc !! "workspaces") = VDict d
                       ∧ cause
                         = ValueError
                             (VDict
                                {[ "workspaces" :=
                                     VDict
                                       (<[CreateWorkspaceRequest.workspace_name
                                            request :=
                                            VDict
                                              (CreateWorkspaceRequest.state
                                                 request)]> d) ]})))).
Proof.
  split; [reflexivity|].
  apply (failures_are_404_or_500 exception_text
           (POST_login
              {| LoginRequest.username := "a/b";
                 LoginRequest.password := "pw1" |})
           sample_store).
  reflexivity.
Defined.

Lemma accounts_never_answer_500_witness :
  accounts_only sample_store
  ∧ client_accepts
      (POST_workspaces {| GetWorkspacesRequest.username := "bob" |})
  ∧ ((∃ body,
        (app exception_text
           (POST_workspaces {| GetWorkspacesRequest.username := "bob" |})
           sample_store).1 = Return body)
     ∨ ∃ detail,
         (app exception_text
            (POST_workspaces {| GetWorkspacesRequest.username := "bob" |})
            sample_store).1 = Raise (HTTPException 404 detail)).
Proof.
  split; [exact sample_store_accounts_only|]. split; [reflexivity|].
  apply accounts_never_answer_500;
    [exact sample_store_accounts_only | reflexivity].
Defined.

Lemma refused_username_witness :
  request_username
    (POST_login
       {| LoginRequest.username := "a/b"; LoginRequest.password := "pw1" |})
  = Some "a/b"
  ∧ addressable "a/b" = false
  ∧ app exception_text
      (POST_login
         {| LoginRequest.username := "a/b"; LoginRequest.password := "pw1" |})
      sample_store
    = (Raise (HTTPException 500 "Login failed: ValueError"), sample_store).
Proof.
  split; [reflexivity|]. split; [reflexivity|].
  apply (refused_username exception_text
           (POST_login
              {| LoginRequest.username := "a/b";
                 LoginRequest.password := "pw1" |})
           sample_store "a/b" eq_refl eq_refl).
Defined.

Lemma refused_upsert_witness :
  sample_store !! "alice" = Some alice
  ∧ default (VDict ∅) (alice !! "workspaces")
    = VDict (VDict <$> alice_workspaces)
  ∧ ("proj2" = "" ∨ storable (VDict {[ "n" := VInt (2 ^ 63) ]}) = false)
  ∧ create_update_workspace exception_text
      {| CreateWorkspaceRequest.username := "alice";
         CreateWorkspaceRequest.workspace_name := "proj2";
         CreateWorkspaceRequest.state := {[ "n" := VInt (2 ^ 63) ]} |}
      sample_store
    = (Raise (HTTPException 500 "Error creating workspace: ValueError"),
       sample_store).
Proof.
  split; [reflexivity|]. split; [reflexivity|].
  split; [right; reflexivity|].
  apply (refused_upsert exception_text sample_store "alice" alice
           (VDict <$> alice_workspaces) "proj2" {[ "n" := VInt (2 ^ 63) ]}
           eq_refl eq_refl).
  right. reflexivity.
Defined.

(** ** Where the properties of section 8 stop

    The inputs at which the statements of section 8 fail as they are
    written: a username the Firestore client refuses as a document id,
    and an upsert it refuses to write. *)

Lemma signup_then_login_counterexample :
  sample_store !! "a/b" = None
  ∧ signup exception_text
      {| SignupRequest.username := "a/b"; SignupRequest.password := "pw2";
         SignupRequest.name := "Bob"; SignupRequest.email := "b@x.com" |}
      sample_store
    = (Raise (HTTPException 500 "Signup failed: ValueError"), sample_store).
Proof. split; reflexivity. Qed.

Lemma upsert_then_list_counterexample :
  sample_store !! "alice" = Some alice
  ∧ holds_workspaces alice alice_workspaces
  ∧ create_update_workspace exception_text
      {| CreateWorkspaceRequest.username := "alice";
         CreateWorkspaceRequest.workspace_name := "";
         CreateWorkspaceRequest.state := proj1_state |} sample_store
    = (Raise (HTTPException 500 "Error creating workspace: ValueError"),
       sample_store)
  ∧ (get_all_workspaces exception_text
       {| GetWorkspacesRequest.username := "alice" |} sample_store).1
    = Return {| GetWorkspacesResponse.status := "success";
                GetWorkspacesResponse.workspaces := alice_workspaces |}
  ∧ alice_workspaces !! "" = None.
Proof. repeat split; reflexivity. Qed.

Lemma login_failures_counterexample :
  sample_store !! "a/b" = None
  ∧ (login exception_text
       {| LoginRequest.username := "a/b"; LoginRequest.password := "pw1" |}
       sample_store).1
    = Raise (HTTPException 500 "Login failed: ValueError").
Proof. split; reflexivity. Qed.

Lemma unknown_username_counterexample :
  sample_store !! "a/b" = None
  ∧ http_status
      (create_update_workspace exception_text
         {| CreateWorkspaceRequest.username := "a/b";
            CreateWorkspaceRequest.workspace_name := "proj1";
            CreateWorkspaceRequest.state := proj1_state |} sample_store).1
    = 500%Z
  ∧ http_status
      (get_all_workspaces exception_text
         {| GetWorkspacesRequest.username := "a/b" |} sample_store).1
    = 500%Z
  ∧ http_status
      (delete_workspace exception_text
         {| DeleteWorkspaceRequest.username := "a/b";
            DeleteWorkspaceRequest.workspace_name := "proj1" |}
         sample_store).1
    = 500%Z
  ∧ http_status
      (login exception_text
         {| LoginRequest.username := "a/b"; LoginRequest.password := "pw1" |}
         sample_store).1
    = 500%Z.
Proof. repeat split; reflexivity. Qed.
